(** * Climate-career agents: knowledge-resolution cascade and routing nodes

    A shallow embedding of [tools.py] (the cache helpers, [direct_db_query],
    [search_knowledge_base] and, in [Toolbox], the remaining tools), of
    [node.py] (the supervisor, human feedback, specialist and integration
    nodes) and of the graph wiring of [graph.py], together with the
    properties the specification states about them and further properties
    read off the code.

    Modelling conventions.
    - Python values that travel through the cascade (result dictionaries,
      backend rows, cached payloads) are values of [Json]; a [dict] is an
      association list in insertion order.
    - Text is ASCII: [str.lower], [str.split] and [str.capitalize] are
      modelled on the 7-bit range.
    - Effectful code runs in [Eff St]: a state-passing function that returns
      either a raised exception or a value, together with the state reached.
      The state survives a raise, as a Python list mutated inside a [try]
      block does.
    - Backends (vector store, embedding model, RPC endpoint, PostgreSQL,
      table API, the language model) are parameters: a [World] gives the
      outcome of every call the code can issue. Calls to [print] are left
      out.
    - A function under [@tool] is called through its wrapper, which checks
      the argument first.
    - The runtime of the graph library is not part of the sources: [Graph]
      has the graph as [graph.py] builds it and the part of a transition
      that the nodes' commands and the declared edges fix. *)

From Stdlib Require Import Ascii String QArith.QArith_base.
From stdpp Require Import base option list strings pretty gmap.

Local Open Scope string_scope.
Local Open Scope list_scope.

(** ** Text helpers *)

Module Text.

Definition is_upper (c : ascii) : bool :=
  let n := nat_of_ascii c in (65 <=? n)%nat && (n <=? 90)%nat.

Definition is_lower (c : ascii) : bool :=
  let n := nat_of_ascii c in (97 <=? n)%nat && (n <=? 122)%nat.

Definition lower_char (c : ascii) : ascii :=
  if is_upper c then ascii_of_nat (nat_of_ascii c + 32) else c.

Definition upper_char (c : ascii) : ascii :=
  if is_lower c then ascii_of_nat (nat_of_ascii c - 32) else c.

(** [str.lower()] *)
Fixpoint lower (s : string) : string :=
  match s with
  | EmptyString => EmptyString
  | String c s' => String (lower_char c) (lower s')
  end.

(** [str.capitalize()]: first character upper-cased, the rest lower-cased. *)
Definition capitalize (s : string) : string :=
  match s with
  | EmptyString => EmptyString
  | String c s' => String (upper_char c) (lower s')
  end.

(** The characters [str.split()] treats as separators. *)
Definition is_space (c : ascii) : bool :=
  let n := nat_of_ascii c in
  (n =? 32)%nat || ((9 <=? n)%nat && (n <=? 13)%nat)
  || ((28 <=? n)%nat && (n <=? 31)%nat).

(** [split_acc cur s]: [cur] is the token being read, reversed. *)
Fixpoint split_acc (cur : list ascii) (s : string) : list string :=
  let flush := match cur with
               | [] => []
               | _ => [string_of_list_ascii (rev cur)]
               end in
  match s with
  | EmptyString => flush
  | String c s' =>
      if is_space c then flush ++ split_acc [] s'
      else split_acc (c :: cur) s'
  end.

(** [str.split()] with no argument. *)
Definition split (s : string) : list string := split_acc [] s.

Fixpoint starts_with (p s : string) : bool :=
  match p, s with
  | EmptyString, _ => true
  | String a p', String b s' => if Ascii.eqb a b then starts_with p' s' else false
  | String _ _, EmptyString => false
  end.

(** [needle in hay] for strings. *)
Fixpoint contains (needle hay : string) : bool :=
  starts_with needle hay ||
  match hay with
  | EmptyString => false
  | String _ hay' => contains needle hay'
  end.

(** [sep.join(parts)] *)
Fixpoint join (sep : string) (parts : list string) : string :=
  match parts with
  | [] => ""
  | [p] => p
  | p :: rest => p +:+ sep +:+ join sep rest
  end.

(** [any(kw in text for kw in kws)] *)
Definition any_in (kws : list string) (text : string) : bool :=
  existsb (fun kw => contains kw text) kws.

End Text.

(** ** Python values *)

#[warnings="-register-all"]
Inductive Json : Type :=
| JNull
| JBool (b : bool)
| JNum (q : Q)
| JStr (s : string)
| JList (l : list Json)
| JObj (kv : list (string * Json))
| JOpaque (repr : string).
(* [JOpaque] stands for a Python object [json.dumps] cannot encode, such as
   a [datetime] or [Decimal] column value handed back by the database
   driver. *)

Definition Row := list (string * Json).

(** [d.get(key, default)] on a dictionary. *)
Fixpoint dict_get (kv : Row) (key : string) (default : Json) : Json :=
  match kv with
  | [] => default
  | (k, v) :: kv' => if String.eqb k key then v else dict_get kv' key default
  end.

(** Python truthiness. *)
Definition truthy (j : Json) : bool :=
  match j with
  | JNull => false
  | JBool b => b
  | JNum q => negb (Z.eqb (Qnum q) 0)
  | JStr s => negb (String.eqb s "")
  | JList l => match l with [] => false | _ => true end
  | JObj kv => match kv with [] => false | _ => true end
  | JOpaque _ => true
  end.

(** Whether [json.dumps] accepts the value. *)
Fixpoint serialisable (j : Json) : bool :=
  match j with
  | JNull | JBool _ | JNum _ | JStr _ => true
  | JList l => forallb serialisable l
  | JObj kv => forallb (fun p => serialisable (snd p)) kv
  | JOpaque _ => false
  end.

(** ** Exceptions and the effect monad *)

Record Exn := MkExn { exn_class : string; exn_msg : string }.

Definition Eff (St A : Type) : Type := St -> (Exn + A) * St.

Module Eff.
Section Ops.
Context {St : Type}.

Definition ret {A} (a : A) : Eff St A := fun s => (inr a, s).

Definition bind {A B} (m : Eff St A) (k : A -> Eff St B) : Eff St B :=
  fun s => match m s with
           | (inr a, s') => k a s'
           | (inl e, s') => (inl e, s')
           end.

Definition raise {A} (e : Exn) : Eff St A := fun s => (inl e, s).

(** [try: body except Exception as e: handler(e)] *)
Definition try_catch {A} (body : Eff St A) (handler : Exn -> Eff St A)
  : Eff St A :=
  fun s => match body s with
           | (inr a, s') => (inr a, s')
           | (inl e, s') => handler e s'
           end.

Definition get : Eff St St := fun s => (inr s, s).
Definition modify (f : St -> St) : Eff St unit := fun s => (inr tt, f s).

(** A pure computation that may raise. *)
Definition lift {A} (r : Exn + A) : Eff St A := fun s => (r, s).

(** [for x in l: body(x)] *)
Fixpoint for_each {A} (l : list A) (body : A -> Eff St unit) : Eff St unit :=
  match l with
  | [] => ret tt
  | x :: l' => bind (body x) (fun _ => for_each l' body)
  end.
End Ops.
End Eff.

Notation "'let*' x ':=' m 'in' k" := (Eff.bind m (fun x => k))
  (at level 10, x name, m at level 100, k at level 200).
Notation "m '>>' k" := (Eff.bind m (fun _ => k))
  (at level 90, right associativity).

(** ** [tools.py]: cache helpers, direct queries and the cascade *)

Module Tools.

(** A LangChain [Document]. *)
Record Document := { page_content : string; metadata : Row }.

(** What a Redis key holds: the text [json.dumps j], or text that is not
    JSON at all. *)
Inductive RedisValue :=
| Dumped (j : Json)
| RawText (s : string).

(** The calls the module issues to its collaborators, in the order issued. *)
Inductive Call :=
| CacheGet (key : string)
| CacheSetex (key : string) (ttl : nat) (data : RedisValue)
| VectorSearch (query : string) (k : nat)
| EmbedQuery (query : string)
| RpcMatchDocuments (match_count : nat) (filter_domain : string)
| PgConnect
| PgExecute (sql : string)
| TableIlike (table column pattern : string) (limit : nat).

(** Module-level globals set at import time. *)
Record Config := {
  supabase_available : bool;
  DB_USER : option string;
  redis_available : bool;
  redis_client : bool;      (* [redis_client] is not [None] *)
  vector_store : bool       (* [vector_store] is not [None] *)
}.

(** The outcome of every backend call during one invocation. *)
Record World := {
  redis_reachable : bool;
  similarity_search_with_score : string -> nat -> Exn + list (Document * Q);
  embed_query : string -> Exn + list Q;
  rpc_match_documents : list Q -> nat -> string -> Exn + list Json;
  pg_connect : bool;
  pg_execute : string -> Exn + list Row;
  table_ilike : string -> string -> string -> nat -> Exn + list Json
}.

(** The Redis contents (value and expiry instant per key), the calls issued
    so far, and the local list [results] of [search_knowledge_base]. *)
Record Frame := {
  redis : gmap string (RedisValue * nat);
  calls : list Call;
  results : list Json
}.

Definition log (c : Call) : Eff Frame unit :=
  Eff.modify (fun fr =>
    {| redis := redis fr; calls := calls fr ++ [c]; results := results fr |}).

Definition set_results (rs : list Json) : Eff Frame unit :=
  Eff.modify (fun fr =>
    {| redis := redis fr; calls := calls fr; results := rs |}).

(** [results.append(r)] *)
Definition append_result (r : Json) : Eff Frame unit :=
  Eff.modify (fun fr =>
    {| redis := redis fr; calls := calls fr; results := results fr ++ [r] |}).

Definition get_results : Eff Frame (list Json) :=
  fun fr => (inr (results fr), fr).

Definition is_nil {A} (l : list A) : bool :=
  match l with [] => true | _ => false end.

Definition option_truthy (o : option string) : bool :=
  match o with
  | Some s => negb (String.eqb s "")
  | None => false
  end.

Definition connection_error : Exn :=
  MkExn "ConnectionError" "Error connecting to Redis".

Definition attribute_error : Exn :=
  MkExn "AttributeError" "object has no attribute 'get'".

(** [json.dumps] and [json.loads]. *)
Definition json_dumps (j : Json) : Exn + RedisValue :=
  if serialisable j then inr (Dumped j)
  else inl (MkExn "TypeError" "Object is not JSON serializable").

Definition json_loads (d : RedisValue) : Exn + Json :=
  match d with
  | Dumped j => inr j
  | RawText _ => inl (MkExn "JSONDecodeError" "Expecting value")
  end.

(** Truthiness of the string [redis_client.get] returns. *)
Definition data_truthy (d : option RedisValue) : bool :=
  match d with
  | Some (Dumped _) => true
  | Some (RawText s) => negb (String.eqb s "")
  | None => false
  end.

Definition expire_default : nat := 3600.

(** The expiry times [SETEX] accepts: positive, and within the signed
    64-bit range once converted to milliseconds. An [int] below zero is
    refused as well; expiries are natural numbers here. Instants are seconds
    of a clock that stays clear of the end of that range. *)
Definition expire_accepted (expire : nat) : bool :=
  (0 <? expire)%nat && (Z.of_nat expire <=? 9223372036854775)%Z.

Definition response_error : Exn :=
  MkExn "ResponseError" "invalid expire time in 'setex' command".

(** The result dictionaries the four strategies build. *)
Definition vector_record (doc : Document) (score : Q) : Json :=
  JObj [("id", dict_get (metadata doc) "id" (JStr "unknown"));
        ("content", JStr (page_content doc));
        ("title", dict_get (metadata doc) "title" (JStr "Untitled"));
        ("summary", dict_get (metadata doc) "summary" (JStr ""));
        ("metadata", JObj (metadata doc));
        ("similarity", JNum score)].

Definition row_record (item : Row) (similarity : Json) : Json :=
  JObj [("id", dict_get item "id" (JStr "unknown"));
        ("content", dict_get item "content" (JStr ""));
        ("title", dict_get item "title" (JStr "Untitled"));
        ("summary", dict_get item "summary" (JStr ""));
        ("metadata", dict_get item "metadata" (JObj []));
        ("similarity", similarity)].

(** An element of [response.data]: [item.get] raises unless it is a dict. *)
Definition rpc_record (item : Json) : Exn + Json :=
  match item with
  | JObj kv => inr (row_record kv (dict_get kv "similarity" (JNum (0 # 1))))
  | _ => inl attribute_error
  end.

Definition direct_similarity : Json := JNum (3 # 4).
Definition keyword_similarity : Json := JNum (4 # 5).

Definition keyword_record (item : Json) : Exn + Json :=
  match item with
  | JObj kv => inr (row_record kv keyword_similarity)
  | _ => inl attribute_error
  end.

Definition unavailable_result : Json :=
  JList [JObj [("error", JStr "Knowledge base is not available")]].

Definition failure_result (e : Exn) : Json :=
  JList [JObj [("error", JStr ("Search failed: " +:+ exn_msg e))]].

(** The [WHERE] conditions of the direct query: first three tokens, those
    longer than two characters. *)
Definition conditions_of (keywords : list string) : list string :=
  map (fun keyword => "content ILIKE '%" +:+ keyword +:+ "%'")
      (filter (fun keyword => (2 <? String.length keyword)%nat = true)
              (take 3 keywords)).

(** The query text of lines 389-394, with the line breaks and indentation of
    the triple-quoted literal written as single spaces. *)
Definition sql_query_of (sql_conditions : string) : string :=
  "SELECT id, title, content, summary, metadata FROM knowledge_chunks WHERE "
  +:+ sql_conditions +:+ " LIMIT 5".

Section Run.
Variable cfg : Config.
Variable w : World.
Variable now : nat.

(** [redis_client.get(key)] *)
Definition redis_get (key : string) : Eff Frame (option RedisValue) :=
  log (CacheGet key) >>
  if redis_reachable w then
    let* fr := Eff.get in
    Eff.ret (match redis fr !! key with
             | Some (v, expiry) => if (now <? expiry)%nat then Some v else None
             | None => None
             end)
  else Eff.raise connection_error.

(** [redis_client.setex(key, expire, data)]: a server that is reached
    refuses an expiry it does not accept and stores nothing. *)
Definition redis_setex (key : string) (expire : nat) (data : RedisValue)
  : Eff Frame bool :=
  log (CacheSetex key expire data) >>
  if redis_reachable w then
    if expire_accepted expire then
      Eff.modify (fun fr =>
        {| redis := <[key := (data, now + expire)]> (redis fr);
           calls := calls fr; results := results fr |}) >>
      Eff.ret true
    else Eff.raise response_error
  else Eff.raise connection_error.

(** [get_from_cache]; Python's [None] is [JNull]. *)
Definition get_from_cache (key : string) : Eff Frame Json :=
  Eff.try_catch
    (if negb (redis_available cfg) || negb (redis_client cfg) then Eff.ret JNull
     else
       let* data := redis_get key in
       if data_truthy data then
         match data with
         | Some d => Eff.lift (json_loads d)
         | None => Eff.ret JNull
         end
       else Eff.ret JNull)
    (fun _ => Eff.ret JNull).

(** [set_in_cache] *)
Definition set_in_cache (key : string) (value : Json) (expire : nat)
  : Eff Frame bool :=
  Eff.try_catch
    (if negb (redis_available cfg) || negb (redis_client cfg) then Eff.ret false
     else
       let* data := Eff.lift (json_dumps value) in
       redis_setex key expire data)
    (fun _ => Eff.ret false).

(** [get_db_connection]: [true] when a connection was obtained. *)
Definition get_db_connection : Eff Frame bool :=
  log PgConnect >> Eff.ret (pg_connect w).

(** [direct_db_query] *)
Definition direct_db_query (query : string) : Eff Frame (list Row) :=
  let* connection := get_db_connection in
  if negb connection then Eff.ret []
  else
    Eff.try_catch
      (log (PgExecute query) >> Eff.lift (pg_execute w query))
      (fun _ => Eff.ret []).

(** Lines 332-346: the similarity strategy. *)
Definition vector_strategy (query : string) : Eff Frame unit :=
  if vector_store cfg then
    Eff.try_catch
      (log (VectorSearch query 5) >>
       let* similarity_results :=
         Eff.lift (similarity_search_with_score w query 5) in
       Eff.for_each similarity_results
         (fun '(doc, score) => append_result (vector_record doc score)))
      (fun _ => Eff.ret tt)
  else Eff.ret tt.

(** Lines 352-371: the body of the [try] around the RPC call. *)
Definition rpc_body (query : string) : Eff Frame unit :=
  log (EmbedQuery query) >>
  let* embeddings_vector := Eff.lift (embed_query w query) in
  log (RpcMatchDocuments 5 "") >>
  let* data := Eff.lift (rpc_match_documents w embeddings_vector 5 "") in
  if is_nil data then Eff.ret tt
  else
    Eff.for_each data
      (fun item => let* r := Eff.lift (rpc_record item) in append_result r).

(** Lines 376-410: the direct-connection fallback. *)
Definition direct_strategy (query : string) : Eff Frame unit :=
  Eff.try_catch
    (let keywords := Text.split (Text.lower query) in
     if is_nil keywords then Eff.ret tt
     else
       let conditions := conditions_of keywords in
       if is_nil conditions then Eff.ret tt
       else
         let sql_conditions := Text.join " OR " conditions in
         let* db_results := direct_db_query (sql_query_of sql_conditions) in
         if is_nil db_results then Eff.ret tt
         else
           Eff.for_each db_results
             (fun item => append_result (row_record item direct_similarity)))
    (fun _ => Eff.ret tt).

(** Lines 414-432: keyword matching through the table API. *)
Definition keyword_strategy (query : string) : Eff Frame unit :=
  Eff.try_catch
    (match Text.split (Text.lower query) with
     | [] => Eff.ret tt
     | main_keyword :: _ =>
         let pattern := "%" +:+ main_keyword +:+ "%" in
         log (TableIlike "knowledge_chunks" "content" pattern 5) >>
         let* data :=
           Eff.lift (table_ilike w "knowledge_chunks" "content" pattern 5) in
         if is_nil data then Eff.ret tt
         else
           Eff.for_each data
             (fun item =>
                let* r := Eff.lift (keyword_record item) in append_result r)
     end)
    (fun _ => Eff.ret tt).

(** The handler of [except Exception as me] (lines 373-432). *)
Definition rpc_handler (query : string) : Eff Frame unit :=
  direct_strategy query >>
  let* rs := get_results in
  if is_nil rs then keyword_strategy query else Eff.ret tt.

Definition cache_key_of (query : string) : string := "kb_search:" +:+ query.

(** Lines 331-432: strategies 2-5, leaving their records in [results]. *)
Definition run_strategies (query : string) : Eff Frame unit :=
  set_results [] >>
  vector_strategy query >>
  let* rs := get_results in
  if is_nil rs then
    Eff.try_catch (rpc_body query) (fun _ => rpc_handler query)
  else Eff.ret tt.

(** [search_knowledge_base] *)
Definition search_knowledge_base (query : string) : Eff Frame Json :=
  if negb (supabase_available cfg) && negb (option_truthy (DB_USER cfg)) then
    Eff.ret unavailable_result
  else
    Eff.try_catch
      (let cache_key := cache_key_of query in
       let* cached_result :=
         (if redis_available cfg then get_from_cache cache_key
          else Eff.ret JNull) in
       if truthy cached_result then Eff.ret cached_result
       else
         run_strategies query >>
         let* rs := get_results in
         (if redis_available cfg && negb (is_nil rs) then
            set_in_cache cache_key (JList rs) expire_default >> Eff.ret tt
          else Eff.ret tt) >>
         Eff.ret (JList rs))
      (fun e => Eff.ret (failure_result e)).

End Run.

(** *** What each strategy does, read off the world

    [Skipped]: the strategy issued no backend call. [Raised partial]: it
    raised after appending [partial]. [Completed records]: it ran to the end
    of its [try] block and appended [records]. *)

Inductive Outcome :=
| Skipped
| Raised (partial : list Json)
| Completed (records : list Json).

Definition records_of (o : Outcome) : list Json :=
  match o with
  | Skipped => []
  | Raised partial => partial
  | Completed records => records
  end.

Definition has_raised (o : Outcome) : bool :=
  match o with Raised _ => true | _ => false end.

(** The records a conversion loop appends before the first element it
    cannot convert, and the exception that element raises. *)
Fixpoint converted {A} (conv : A -> Exn + Json) (l : list A)
  : list Json * option Exn :=
  match l with
  | [] => ([], None)
  | x :: l' =>
      match conv x with
      | inl e => ([], Some e)
      | inr r => let '(rs, o) := converted conv l' in (r :: rs, o)
      end
  end.

Definition loop_outcome {A} (conv : A -> Exn + Json) (l : list A) : Outcome :=
  match converted conv l with
  | (rs, Some _) => Raised rs
  | (rs, None) => Completed rs
  end.

Section Summary.
Variable cfg : Config.
Variable w : World.
Variable now : nat.

(** The value the cache probe yields and the calls it issues. *)
Definition probe (fr : Frame) (key : string) : Json :=
  if negb (redis_available cfg) || negb (redis_client cfg) then JNull
  else if redis_reachable w then
    match redis fr !! key with
    | Some (Dumped j, expiry) => if (now <? expiry)%nat then j else JNull
    | _ => JNull
    end
  else JNull.

Definition probe_calls (key : string) : list Call :=
  if redis_available cfg && redis_client cfg then [CacheGet key] else [].

Definition vector_outcome (query : string) : Outcome :=
  if vector_store cfg then
    match similarity_search_with_score w query 5 with
    | inl _ => Raised []
    | inr docs => Completed (map (fun '(doc, score) => vector_record doc score) docs)
    end
  else Skipped.

Definition vector_calls (query : string) : list Call :=
  if vector_store cfg then [VectorSearch query 5] else [].

Definition rpc_outcome (query : string) : Outcome :=
  match embed_query w query with
  | inl _ => Raised []
  | inr v =>
      match rpc_match_documents w v 5 "" with
      | inl _ => Raised []
      | inr data => loop_outcome rpc_record data
      end
  end.

Definition rpc_calls (query : string) : list Call :=
  match embed_query w query with
  | inl _ => [EmbedQuery query]
  | inr _ => [EmbedQuery query; RpcMatchDocuments 5 ""]
  end.

Definition direct_sql (query : string) : option string :=
  match conditions_of (Text.split (Text.lower query)) with
  | [] => None
  | conditions => Some (sql_query_of (Text.join " OR " conditions))
  end.

Definition direct_outcome (query : string) : Outcome :=
  match direct_sql query with
  | None => Skipped
  | Some sql =>
      if pg_connect w then
        match pg_execute w sql with
        | inl _ => Completed []
        | inr rows => Completed (map (fun item => row_record item direct_similarity) rows)
        end
      else Completed []
  end.

Definition direct_calls (query : string) : list Call :=
  match direct_sql query with
  | None => []
  | Some sql => if pg_connect w then [PgConnect; PgExecute sql] else [PgConnect]
  end.

Definition keyword_pattern (query : string) : option string :=
  match Text.split (Text.lower query) with
  | [] => None
  | main_keyword :: _ => Some ("%" +:+ main_keyword +:+ "%")
  end.

Definition keyword_outcome (query : string) : Outcome :=
  match keyword_pattern query with
  | None => Skipped
  | Some pattern =>
      match table_ilike w "knowledge_chunks" "content" pattern 5 with
      | inl _ => Raised []
      | inr data => loop_outcome keyword_record data
      end
  end.

Definition keyword_calls (query : string) : list Call :=
  match keyword_pattern query with
  | None => []
  | Some pattern => [TableIlike "knowledge_chunks" "content" pattern 5]
  end.

End Summary.

End Tools.

(** ** The [@tool] interface

    A function decorated with [@tool] is exported as a tool object: a call
    of the object validates the argument against the function's signature
    before the function runs ([tests/test_tools.py] reaches the function
    itself through [.func], "without the tool interface"). Parameters typed
    [str] are strings here already; the one parameter of another type is
    [filters: Optional[Dict[str, Any]]] of [get_ecosystem_partners]. *)

Module ToolInterface.

(** [None] or a dictionary. *)
Definition is_optional_dict (v : Json) : bool :=
  match v with
  | JNull | JObj _ => true
  | _ => false
  end.

(** The wrapper's [ValidationError]; its text is the validation library's
    and is a parameter wherever the error is raised. *)
Definition validation_error (detail : string) : Exn :=
  MkExn "ValidationError" detail.

End ToolInterface.

(** ** [node.py]: supervisor, human feedback, specialists, integration *)

Module Node.
Import ToolInterface.

Definition nl : string := String (ascii_of_nat 10) EmptyString.

(** The [context] dictionary built by the supervisor; a key is [None] when
    it is absent. *)
Record Context := {
  knowledge_base_results : option Json;
  ecosystem_partners : option Json
}.

Definition empty_context : Context :=
  {| knowledge_base_results := None; ecosystem_partners := None |}.

Record Feedback := { approved : bool }.

(** The graph state, a [Dict[str, Any]]: a field is [None] when the key is
    absent. [specialist_responses] keeps the dictionary's insertion order.
    The same record describes a [Command]'s [update]. *)
Record State := {
  messages : option (list string);
  specialists_to_call : option (list string);
  routing_reasons : option (list string);
  context : option Context;
  specialist_responses : option (list (string * string));
  feedback : option Feedback;
  error : option string;
  final_response : option string
}.

Definition no_update : State :=
  {| messages := None; specialists_to_call := None; routing_reasons := None;
     context := None; specialist_responses := None; feedback := None;
     error := None; final_response := None |}.

Record Command := { goto : string; update : State }.

(** Calls a node issues to its collaborators. *)
Inductive NodeCall :=
| KbSearch (query : string)
| PartnerLookup (filters : Json)
| AgentExec (persona_name : string) (tools : list string)
            (messages : list string) (context : Context).

Definition Trace := list NodeCall.

(** The collaborators of the nodes. [search_knowledge_base] and
    [get_ecosystem_partners] are the tools of [tools.py]: the first takes a
    string and returns a value on every path; the second returns a value
    for every argument its wrapper accepts, and [validation_detail] is the
    text of the error for one it refuses. [execute_agent] lives in a module
    that is not part of the sources and is taken as given: it returns the
    agent's [response] text. *)
Record Env := {
  search_knowledge_base : string -> Json;
  get_ecosystem_partners : Json -> Json;
  validation_detail : Json -> string;
  execute_agent : string -> list string -> list string -> Context -> string
}.

Definition PENDO_TOOLS : list string :=
  ["search_knowledge_base"; "search_clean_energy_web";
   "search_massachusetts_resources"; "search_clean_energy_occupations";
   "search_training_programs"].

Definition JASMINE_TOOLS : list string :=
  ["search_knowledge_base"; "search_clean_energy_web";
   "search_massachusetts_resources"; "locate_ej_training_resources";
   "find_dei_programs"].

Definition MARCUS_TOOLS : list string :=
  ["search_knowledge_base"; "search_clean_energy_web";
   "search_massachusetts_resources"; "search_clean_energy_occupations";
   "translate_military_occupation"; "find_veteran_benefits"].

Definition MIGUEL_TOOLS : list string :=
  ["search_knowledge_base"; "search_clean_energy_web";
   "search_massachusetts_resources"; "search_clean_energy_occupations";
   "evaluate_international_credential";
   "find_international_integration_resources"].

Definition LIV_TOOLS : list string :=
  ["search_knowledge_base"; "search_clean_energy_web";
   "search_massachusetts_resources"; "search_clean_energy_occupations";
   "analyze_resume"; "get_career_paths"; "find_training_resources";
   "match_jobs"; "create_development_plan"].

Definition index_error : Exn := MkExn "IndexError" "list index out of range".

(** [state.get(key, default)] *)
Definition get_or {A} (o : option A) (default : A) : A :=
  match o with Some v => v | None => default end.

(** Lines 95-115 of [supervisor_node]: the four keyword tests, each
    appending to [specialists] and [routing_reasons]. *)
Definition analyze_response (response : string) : list string * list string :=
  let response_lower := Text.lower response in
  let specialists : list string := [] in
  let routing_reasons : list string := [] in
  let '(specialists, routing_reasons) :=
    if Text.any_in ["career"; "resume"; "skills"] response_lower
    then (specialists ++ ["liv"],
          routing_reasons ++ ["Career development expertise needed"])
    else (specialists, routing_reasons) in
  let '(specialists, routing_reasons) :=
    if Text.any_in ["environmental justice"; "equity"; "community"] response_lower
    then (specialists ++ ["jasmine"],
          routing_reasons ++ ["Environmental justice expertise needed"])
    else (specialists, routing_reasons) in
  let '(specialists, routing_reasons) :=
    if Text.any_in ["veteran"; "military"; "service"] response_lower
    then (specialists ++ ["marcus"],
          routing_reasons ++ ["Veteran transition expertise needed"])
    else (specialists, routing_reasons) in
  let '(specialists, routing_reasons) :=
    if Text.any_in ["international"; "visa"; "credential"] response_lower
    then (specialists ++ ["miguel"],
          routing_reasons ++ ["International professional expertise needed"])
    else (specialists, routing_reasons) in
  (specialists, routing_reasons).

Section Nodes.
Variable env : Env.

Definition call_search_knowledge_base (msg : string) : Eff Trace Json :=
  fun tr => (inr (search_knowledge_base env msg), tr ++ [KbSearch msg]).

(** A call of the tool object [get_ecosystem_partners]: the wrapper checks
    the argument before the function runs. *)
Definition call_get_ecosystem_partners (filters : Json) : Eff Trace Json :=
  fun tr =>
    (if is_optional_dict filters
     then inr (get_ecosystem_partners env filters)
     else inl (validation_error (validation_detail env filters)),
     tr ++ [PartnerLookup filters]).

Definition call_execute_agent (persona_name : string) (tools : list string)
  (msgs : list string) (ctx : Context) : Eff Trace string :=
  fun tr => (inr (execute_agent env persona_name tools msgs ctx),
             tr ++ [AgentExec persona_name tools msgs ctx]).

(** Lines 95-145 of [supervisor_node]: the command built from the agent's
    response, the knowledge-base results and the context. *)
Definition routing_command (kb_results : Json) (context : Context)
  (response : string) : Command :=
  let '(specialists, routing_reasons) := analyze_response response in
  let answer :=
    {| goto := "END";
       update := {| messages := None; specialists_to_call := None;
                    routing_reasons := None; context := Some context;
                    specialist_responses := None; feedback := None;
                    error := None; final_response := Some response |} |} in
  if Tools.is_nil specialists && truthy kb_results then answer
  else if negb (Tools.is_nil specialists) then
    {| goto := "human_feedback";
       update := {| messages := None;
                    specialists_to_call := Some specialists;
                    routing_reasons := Some routing_reasons;
                    context := Some context;
                    specialist_responses := None;
                    feedback := None; error := None;
                    final_response := None |} |}
  else answer.

(** [last messages] is [None] exactly when [not messages] holds; otherwise
    it is [messages[-1]], a string, which line 83 hands to the partner tool
    as its [filters]. *)
Definition supervisor_node (state : State) : Eff Trace Command :=
  let messages := get_or (messages state) [] in
  match last messages with
  | None =>
      Eff.ret {| goto := "END";
                 update := {| messages := None; specialists_to_call := None;
                              routing_reasons := None; context := None;
                              specialist_responses := None; feedback := None;
                              error := Some "No messages found";
                              final_response := None |} |}
  | Some latest_msg =>
      let* kb_results := call_search_knowledge_base latest_msg in
      let context :=
        if truthy kb_results
        then {| knowledge_base_results := Some kb_results;
                ecosystem_partners := None |}
        else empty_context in
      let* partners := call_get_ecosystem_partners (JStr latest_msg) in
      let context :=
        if truthy partners
        then {| knowledge_base_results := knowledge_base_results context;
                ecosystem_partners := Some partners |}
        else context in
      let* response :=
        call_execute_agent "pendo" PENDO_TOOLS [latest_msg] context in
      Eff.ret (routing_command kb_results context response)
  end.

(** The placeholder of line 162. The [feedback_prompt] dictionary the node
    builds is not used afterwards and is left out. *)
Definition placeholder_feedback : Feedback := {| approved := true |}.

Definition human_feedback_node (state : State) : Eff Trace Command :=
  let specialists := get_or (specialists_to_call state) [] in
  let context := get_or (context state) empty_context in
  let feedback := placeholder_feedback in
  if approved feedback then
    match specialists with
    | [] => Eff.raise index_error
    | first :: _ =>
        Eff.ret {| goto := first;
                   update := {| messages := None; specialists_to_call := None;
                                routing_reasons := None;
                                context := Some context;
                                specialist_responses := None;
                                feedback := None; error := None;
                                final_response := None |} |}
    end
  else
    Eff.ret {| goto := "supervisor";
               update := {| messages := None; specialists_to_call := None;
                            routing_reasons := None; context := None;
                            specialist_responses := None;
                            feedback := Some feedback; error := None;
                            final_response := None |} |}.

(** One entry of the composite response. *)
Definition analysis_of (entry : string * string) : string :=
  Text.capitalize (fst entry) +:+ "'s Analysis:" +:+ nl +:+ snd entry
  +:+ nl +:+ nl.

Definition integrated_header : string :=
  "Integrated insights from specialists:" +:+ nl +:+ nl.

Definition integrate_responses_node (state : State) : Eff Trace Command :=
  let specialist_responses := get_or (specialist_responses state) [] in
  match specialist_responses with
  | [] =>
      Eff.ret {| goto := "supervisor";
                 update := {| messages := None; specialists_to_call := None;
                              routing_reasons := None; context := None;
                              specialist_responses := None; feedback := None;
                              error := Some "No specialist responses to integrate";
                              final_response := None |} |}
  | _ :: _ =>
      let integrated_response :=
        fold_left (fun acc entry => acc +:+ analysis_of entry)
                  specialist_responses integrated_header in
      Eff.ret {| goto := "supervisor";
                 update := {| messages := None; specialists_to_call := None;
                              routing_reasons := None; context := None;
                              specialist_responses := None; feedback := None;
                              error := None;
                              final_response := Some integrated_response |} |}
  end.

(** The four specialist nodes share one body, up to the persona name and
    the tool set. *)
Definition specialist_node (persona_name : string) (tools : list string)
  (state : State) : Eff Trace Command :=
  let messages := get_or (messages state) [] in
  let context := get_or (context state) empty_context in
  let* response := call_execute_agent persona_name tools messages context in
  Eff.ret {| goto := "supervisor";
             update := {| messages := None; specialists_to_call := None;
                          routing_reasons := None; context := None;
                          specialist_responses := Some [(persona_name, response)];
                          feedback := None; error := None;
                          final_response := None |} |}.

Definition liv_node : State -> Eff Trace Command :=
  specialist_node "liv" LIV_TOOLS.
Definition jasmine_node : State -> Eff Trace Command :=
  specialist_node "jasmine" JASMINE_TOOLS.
Definition marcus_node : State -> Eff Trace Command :=
  specialist_node "marcus" MARCUS_TOOLS.
Definition miguel_node : State -> Eff Trace Command :=
  specialist_node "miguel" MIGUEL_TOOLS.

End Nodes.

End Node.

(** ** [graph.py]: the graph and the turn it drives *)

Module Graph.
Import Node.

(** The target of an edge: the name of a node, or the constant [END] that
    [graph.py] imports from the graph library. The value of that constant is
    not in the sources, and nothing in them relates it to the literal
    ["END"] that [node.py] puts in its commands. *)
Inductive Target :=
| Name (name : string)
| END.

Record ToolConfig := {
  max_concurrent_calls : nat;
  timeout : nat;
  retry_attempts : nat
}.

(** [GraphConfig]; a field is [None] when the key is absent. *)
Record GraphConfig := {
  tool_config : option ToolConfig;
  checkpointer : option string
}.

Definition NodeFn := Env -> State -> Eff Trace Command.

Record StateGraph := {
  nodes : list (string * NodeFn);
  entry_point : option string;
  edges : list (string * Target);
  graph_checkpointer : option string;
  graph_tool : option ToolConfig;
  compiled : bool
}.

Definition specialist_nodes : list string := ["liv"; "jasmine"; "marcus"; "miguel"].

Definition create_climate_graph (config : option GraphConfig) : StateGraph :=
  {| nodes := [("supervisor", supervisor_node); ("liv", liv_node);
               ("jasmine", jasmine_node); ("marcus", marcus_node);
               ("miguel", miguel_node);
               ("integrate", fun _ => integrate_responses_node);
               ("human_feedback", fun _ => human_feedback_node)];
     entry_point := Some "supervisor";
     edges :=
       flat_map (fun node_name =>
                   [("supervisor", Name node_name);
                    (node_name, Name "supervisor");
                    (node_name, Name "integrate")]) specialist_nodes
       ++ [("supervisor", Name "human_feedback");
           ("human_feedback", Name "supervisor");
           ("integrate", Name "supervisor");
           ("supervisor", Name "integrate");
           ("supervisor", END)];
     graph_checkpointer :=
       match config with Some c => checkpointer c | None => None end;
     graph_tool :=
       match config with Some c => tool_config c | None => None end;
     compiled := true |}.

Definition default_config : GraphConfig :=
  {| tool_config := Some {| max_concurrent_calls := 5; timeout := 30;
                            retry_attempts := 2 |};
     checkpointer := None |}.

(** [create_graph_with_config]: a given [tool_config] replaces the default
    keys it sets (here: all three), a given [checkpointer] replaces the
    default one. *)
Definition create_graph_with_config (config : option GraphConfig) : StateGraph :=
  let merged :=
    match config with
    | None => default_config
    | Some c =>
        {| tool_config := match tool_config c with
                          | Some t => Some t
                          | None => tool_config default_config
                          end;
           checkpointer := match checkpointer c with
                           | Some k => Some k
                           | None => checkpointer default_config
                           end |}
    end in
  create_climate_graph (Some merged).

Definition climate_graph : StateGraph := create_graph_with_config None.

(** *** One transition

    The runtime that drives the graph belongs to the graph library and is
    not part of the sources. What the sources fix of a transition is
    modelled: the node at the current position runs; when it raises, the
    turn has crashed; otherwise the keys of its [update] replace those of
    the state, and control moves to the node named by [goto] when the graph
    declares an edge to it from the current node. A [goto] that is no such
    edge - the literal ["END"] among them - stops the model there: what the
    library does with it is not in the sources. Neither is a bound on the
    number of transitions; [run] takes their number from the caller. *)

Definition merge {A} (old new : option A) : option A :=
  match new with Some v => Some v | None => old end.

Definition apply_update (st u : State) : State :=
  {| messages := merge (messages st) (messages u);
     specialists_to_call := merge (specialists_to_call st) (specialists_to_call u);
     routing_reasons := merge (routing_reasons st) (routing_reasons u);
     context := merge (context st) (context u);
     specialist_responses := merge (specialist_responses st) (specialist_responses u);
     feedback := merge (feedback st) (feedback u);
     error := merge (error st) (error u);
     final_response := merge (final_response st) (final_response u) |}.

Inductive Status :=
| Running (node : string)
| Stopped (node goto : string)
| Crashed (e : Exn).

Record Turn := {
  status : Status;
  state : State;
  trace : Trace
}.

Fixpoint find_node (name : string) (l : list (string * NodeFn)) : option NodeFn :=
  match l with
  | [] => None
  | (n, f) :: l' => if String.eqb n name then Some f else find_node name l'
  end.

Definition unknown_node (name : string) : Exn :=
  MkExn "ValueError" ("unknown node " +:+ name).

Definition names (t : Target) (name : string) : bool :=
  match t with
  | Name n => String.eqb n name
  | END => false
  end.

(** The graph has an edge from [source] to the node [target]. *)
Definition declares (g : StateGraph) (source target : string) : bool :=
  existsb (fun e => String.eqb (fst e) source && names (snd e) target)
          (edges g).

(** One transition. *)
Definition step (g : StateGraph) (env : Env) (t : Turn) : Turn :=
  match status t with
  | Running name =>
      match find_node name (nodes g) with
      | None => {| status := Crashed (unknown_node name);
                   state := state t; trace := trace t |}
      | Some f =>
          match f env (state t) (trace t) with
          | (inl e, tr) => {| status := Crashed e; state := state t; trace := tr |}
          | (inr cmd, tr) =>
              {| status := if declares g name (goto cmd)
                           then Running (goto cmd)
                           else Stopped name (goto cmd);
                 state := apply_update (state t) (update cmd);
                 trace := tr |}
          end
      end
  | _ => t
  end.

(** [n] transitions. *)
Fixpoint run (g : StateGraph) (env : Env) (n : nat) (t : Turn) : Turn :=
  match n with
  | O => t
  | S n' => run g env n' (step g env t)
  end.

Definition start (g : StateGraph) (st : State) : Turn :=
  {| status := match entry_point g with
               | Some name => Running name
               | None => Crashed (MkExn "ValueError" "no entry point")
               end;
     state := st; trace := [] |}.

(** The turn after [n] transitions from the entry point. *)
Definition invoke (g : StateGraph) (env : Env) (st : State) (n : nat) : Turn :=
  run g env n (start g st).

End Graph.

(** ** Vocabulary of the statements *)

Module Cascade.
Import Tools.

(** The frame after the calls [cs] were issued and [rs] appended. *)
Definition extend (fr : Frame) (cs : list Call) (rs : list Json) : Frame :=
  {| redis := redis fr; calls := calls fr ++ cs; results := results fr ++ rs |}.

(** The strategy a call belongs to, in cascade order; the write-back comes
    last. *)
Definition stage (c : Call) : nat :=
  match c with
  | CacheGet _ => 1
  | VectorSearch _ _ => 2
  | EmbedQuery _ | RpcMatchDocuments _ _ => 3
  | PgConnect | PgExecute _ => 4
  | TableIlike _ _ _ _ => 5
  | CacheSetex _ _ _ => 6
  end.

Definition is_writeback (c : Call) : bool :=
  match c with CacheSetex _ _ _ => true | _ => false end.

(** The guard of line 316 lets the call through. *)
Definition configured (cfg : Config) : bool :=
  supabase_available cfg || option_truthy (DB_USER cfg).

Section Summary.
Variable cfg : Config.
Variable w : World.
Variable now : nat.

(** What the [except] handler of the RPC strategy adds, given what the RPC
    loop had appended before it raised. *)
Definition handler_calls (query : string) (partial : list Json) : list Call :=
  direct_calls w query ++
  (if is_nil (partial ++ records_of (direct_outcome w query))
   then keyword_calls query else []).

Definition handler_records (query : string) (partial : list Json) : list Json :=
  records_of (direct_outcome w query) ++
  (if is_nil (partial ++ records_of (direct_outcome w query))
   then records_of (keyword_outcome w query) else []).

(** Calls and records of strategies 2-5 on a cache miss. *)
Definition cascade_calls (query : string) : list Call :=
  vector_calls cfg query ++
  (if is_nil (records_of (vector_outcome cfg w query)) then
     rpc_calls w query ++
     (if has_raised (rpc_outcome w query)
      then handler_calls query (records_of (rpc_outcome w query)) else [])
   else []).

Definition cascade_records (query : string) : list Json :=
  records_of (vector_outcome cfg w query) ++
  (if is_nil (records_of (vector_outcome cfg w query)) then
     records_of (rpc_outcome w query) ++
     (if has_raised (rpc_outcome w query)
      then handler_records query (records_of (rpc_outcome w query)) else [])
   else []).

(** The frame [set_in_cache key value expire] leaves. *)
Definition after_set (key : string) (value : Json) (expire : nat) (fr : Frame)
  : Frame :=
  if negb (redis_available cfg) || negb (redis_client cfg) then fr
  else if serialisable value then
    {| redis := if redis_reachable w && expire_accepted expire
                then <[key := (Dumped value, now + expire)]> (redis fr)
                else redis fr;
       calls := calls fr ++ [CacheSetex key expire (Dumped value)];
       results := results fr |}
  else fr.

(** The frame a call leaves on a cache miss. *)
Definition after_miss (query : string) (fr : Frame) : Frame :=
  let fr' := {| redis := redis fr;
                calls := calls fr ++ probe_calls cfg (cache_key_of query)
                         ++ cascade_calls query;
                results := cascade_records query |} in
  if redis_available cfg && negb (is_nil (cascade_records query))
  then after_set (cache_key_of query) (JList (cascade_records query))
                 expire_default fr'
  else fr'.

(** Every backend is down: each call a strategy issues raises (for the
    direct connection: no connection, or the query raises), and the cache
    holds nothing live for the key or cannot be reached. *)
Definition total_failure (query : string) (fr : Frame) : Prop :=
  (redis_reachable w = false \/
   forall v expiry, redis fr !! cache_key_of query = Some (v, expiry) ->
                    (expiry <= now)%nat) /\
  (exists e, similarity_search_with_score w query 5 = inl e) /\
  ((exists e, embed_query w query = inl e) \/
   forall v, exists e, rpc_match_documents w v 5 "" = inl e) /\
  (pg_connect w = false \/ forall sql, exists e, pg_execute w sql = inl e) /\
  (forall pattern,
     exists e, table_ilike w "knowledge_chunks" "content" pattern 5 = inl e).

End Summary.

(** A list holding one synthetic record that carries a failure reason. *)
Definition is_failure_record (v : Json) : Prop :=
  exists reason, v = JList [JObj [("error", JStr reason)]].

(** Strategy [k] issued a backend call. *)
Definition attempted (k : nat) (cs : list Call) : Prop :=
  exists c, In c cs /\ stage c = k.

Fixpoint ascending (l : list nat) : Prop :=
  match l with
  | [] => True
  | x :: l' =>
      match l' with [] => True | y :: _ => (x <= y)%nat end /\ ascending l'
  end.

Section Claims.
Variable cfg : Config.
Variable w : World.
Variable now : nat.
Variable query : string.
Variable fr : Frame.

(** The cache probe of this call finds nothing it can use. *)
Definition cache_miss : Prop :=
  truthy (probe cfg w now fr (cache_key_of query)) = false.

Definition vector_records : list Json :=
  records_of (vector_outcome cfg w query).
Definition rpc_records : list Json := records_of (rpc_outcome w query).
Definition rpc_raised : Prop := has_raised (rpc_outcome w query) = true.
Definition direct_records : list Json := records_of (direct_outcome w query).
Definition keyword_records : list Json := records_of (keyword_outcome w query).

(** Strategies 2-5 are attempted only on a cache miss of a configured
    knowledge base; the RPC only after the similarity search left nothing;
    the direct-connection fallback only when, besides, the RPC strategy
    raised (whatever its loop had recorded by then); the table-API
    fallback only when, besides, neither the RPC loop nor the direct
    connection left a record. *)
Definition attempts_justified (cs : list Call) : Prop :=
  (attempted 2 cs -> configured cfg = true /\ cache_miss) /\
  (attempted 3 cs ->
     configured cfg = true /\ cache_miss /\ vector_records = []) /\
  (attempted 4 cs ->
     configured cfg = true /\ cache_miss /\ vector_records = [] /\ rpc_raised) /\
  (attempted 5 cs ->
     configured cfg = true /\ cache_miss /\ vector_records = [] /\ rpc_raised /\
     rpc_records = [] /\ direct_records = []).

(** After a failure the cascade moves on to the next strategy that has a
    call to issue. *)
Definition falls_through (cs : list Call) : Prop :=
  (vector_store cfg = true -> attempted 2 cs) /\
  (vector_records = [] -> attempted 3 cs) /\
  (vector_records = [] -> rpc_raised -> direct_sql query <> None ->
   attempted 4 cs) /\
  (vector_records = [] -> rpc_raised -> rpc_records = [] ->
   direct_records = [] -> keyword_pattern query <> None -> attempted 5 cs).

(** The value returned: the similarity search's records when it left any;
    else the RPC's records when the RPC did not raise; else, when the RPC
    raised before it recorded anything, the direct connection's records
    when it left any and the table API's otherwise. *)
Definition first_producer_wins (v : Exn + Json) : Prop :=
  (vector_records <> [] -> v = inr (JList vector_records)) /\
  (vector_records = [] -> ~ rpc_raised -> v = inr (JList rpc_records)) /\
  (vector_records = [] -> rpc_raised -> rpc_records = [] ->
   direct_records <> [] -> v = inr (JList direct_records)) /\
  (vector_records = [] -> rpc_raised -> rpc_records = [] ->
   direct_records = [] -> v = inr (JList keyword_records)).

(** The specification's reading of the fall-through rule: a later strategy
    is attempted whenever every earlier non-cache strategy produced zero
    records. *)
Definition attempted_whenever_earlier_empty : Prop :=
  let cs := calls (snd (search_knowledge_base cfg w now query fr)) in
  (vector_records = [] -> attempted 3 cs) /\
  (vector_records = [] -> rpc_records = [] -> direct_sql query <> None ->
   attempted 4 cs) /\
  (vector_records = [] -> rpc_records = [] -> direct_records = [] ->
   keyword_pattern query <> None -> attempted 5 cs).

(** The specification's reading of a cache hit: a live cached value for the
    query's key is what the call returns. *)
Definition returns_cached_value : Prop :=
  forall j expiry,
    redis fr !! cache_key_of query = Some (Dumped j, expiry) ->
    (now < expiry)%nat -> truthy j = true ->
    fst (search_knowledge_base cfg w now query fr) = inr j.

End Claims.

(** The write-back call of a cache miss, if one is issued. *)
Definition writeback_calls (cfg : Config) (w : World) (query : string) : list Call :=
  let rs := cascade_records cfg w query in
  if redis_available cfg && negb (is_nil rs) then
    if negb (redis_available cfg) || negb (redis_client cfg) then []
    else if serialisable (JList rs)
         then [CacheSetex (cache_key_of query) expire_default (Dumped (JList rs))]
         else []
  else [].

(** All calls of one invocation. *)
Definition issued (cfg : Config) (w : World) (now : nat) (query : string)
  (fr : Frame) : list Call :=
  if configured cfg then
    probe_calls cfg (cache_key_of query) ++
    (if truthy (probe cfg w now fr (cache_key_of query)) then []
     else cascade_calls cfg w query ++ writeback_calls cfg w query)
  else [].

(** The calls [cs] belong to stages [lo..hi] and come in stage order. *)
Definition within (lo hi : nat) (cs : list Call) : Prop :=
  Forall (fun c => (lo <= stage c <= hi)%nat) cs /\ ascending (map stage cs).

(** The specification's reading of the write-back: a non-empty result
    obtained from strategies 2-5 at time [t1] is stored under the query's
    key, and a second call at [t2] returns it without calling a strategy. *)
Definition written_back_and_replayed (cfg : Config) (w1 w2 : World)
  (t1 t2 : nat) (query : string) (fr : Frame) : Prop :=
  forall rs fr1,
    search_knowledge_base cfg w1 t1 query fr = (inr (JList rs), fr1) ->
    cache_miss cfg w1 t1 query fr -> rs <> [] ->
    (exists expiry, redis fr1 !! cache_key_of query
                    = Some (Dumped (JList rs), expiry)) /\
    fst (search_knowledge_base cfg w2 t2 query fr1) = inr (JList rs).

End Cascade.

Module Routing.
Import Node Graph.

(** The keyword taxonomy, in routing priority order. *)
Definition taxonomy : list (string * list string) :=
  [("liv", ["career"; "resume"; "skills"]);
   ("jasmine", ["environmental justice"; "equity"; "community"]);
   ("marcus", ["veteran"; "military"; "service"]);
   ("miguel", ["international"; "visa"; "credential"])].

(** The specialists whose category has a keyword in the lower-cased text,
    in taxonomy order. *)
Definition matched (response : string) : list string :=
  map fst (filter (fun entry => Text.any_in (snd entry) (Text.lower response) = true)
                  taxonomy).

End Routing.

(** ** Sample configurations, worlds and states *)

Module Samples.
Import Tools.

Definition down : Exn := MkExn "ConnectionError" "backend unavailable".

Definition cfg_full : Config :=
  {| supabase_available := true; DB_USER := Some "postgres";
     redis_available := true; redis_client := true; vector_store := true |}.

(** Neither Supabase nor a database user; Redis is set up. *)
Definition cfg_unconfigured : Config :=
  {| supabase_available := false; DB_USER := None;
     redis_available := true; redis_client := true; vector_store := false |}.

(** Redis failed to initialise at import time. *)
Definition cfg_no_redis : Config :=
  {| supabase_available := true; DB_USER := Some "postgres";
     redis_available := false; redis_client := false; vector_store := true |}.

Definition doc_solar : Document :=
  {| page_content := "Solar installer training in Boston";
     metadata := [("id", JStr "doc-1"); ("title", JStr "Solar careers")] |}.

Definition doc_wind : Document :=
  {| page_content := "Offshore wind technician roles";
     metadata := [("id", JStr "doc-2"); ("title", JStr "Wind careers")] |}.

Definition row_solar : Row :=
  [("id", JStr "row-7"); ("title", JStr "Solar jobs board");
   ("content", JStr "Open solar jobs in Massachusetts")].

(** Every backend is down. *)
Definition world_down : World :=
  {| redis_reachable := false;
     similarity_search_with_score := fun _ _ => inl down;
     embed_query := fun _ => inl down;
     rpc_match_documents := fun _ _ _ => inl down;
     pg_connect := false;
     pg_execute := fun _ => inl down;
     table_ilike := fun _ _ _ _ => inl down |}.

(** The similarity search is down, the RPC answers with no row, and both
    keyword back ends hold a matching row. *)
Definition world_rpc_empty : World :=
  {| redis_reachable := true;
     similarity_search_with_score := fun _ _ => inl down;
     embed_query := fun _ => inr [1 # 10; 2 # 10];
     rpc_match_documents := fun _ _ _ => inr [];
     pg_connect := true;
     pg_execute := fun _ => inr [row_solar];
     table_ilike := fun _ _ _ _ => inr [JObj row_solar] |}.

(** The similarity search and the RPC are down; the direct connection
    answers. *)
Definition world_direct_only : World :=
  {| redis_reachable := true;
     similarity_search_with_score := fun _ _ => inl down;
     embed_query := fun _ => inl down;
     rpc_match_documents := fun _ _ _ => inl down;
     pg_connect := true;
     pg_execute := fun _ => inr [row_solar];
     table_ilike := fun _ _ _ _ => inl down |}.

(** The similarity search answers with one document. *)
Definition world_vector (doc : Document) : World :=
  {| redis_reachable := true;
     similarity_search_with_score := fun _ _ => inr [(doc, 9 # 10)];
     embed_query := fun _ => inl down;
     rpc_match_documents := fun _ _ _ => inl down;
     pg_connect := false;
     pg_execute := fun _ => inl down;
     table_ilike := fun _ _ _ _ => inl down |}.

Definition empty_frame : Frame :=
  {| redis := ∅; calls := []; results := [] |}.

Definition cached_value : Json :=
  JList [JObj [("id", JStr "test-id-1"); ("title", JStr "Clean Energy Careers");
               ("content", JStr "Massachusetts has many opportunities in clean energy.");
               ("similarity", JNum (19 # 20))]].

(** Redis holds [cached_value] for the query "solar jobs" until instant 100. *)
Definition cached_frame : Frame :=
  {| redis := {[ "kb_search:solar jobs" := (Dumped cached_value, 100) ]};
     calls := []; results := [] |}.

(** A supervisor agent whose answer always mentions careers and equity; the
    specialists answer with their own name. *)
Definition env_career_equity : Node.Env :=
  {| Node.search_knowledge_base := fun _ => JList [];
     Node.get_ecosystem_partners := fun _ => JList [];
     Node.validation_detail := fun _ => "Input should be a valid dictionary";
     Node.execute_agent := fun persona_name _ _ _ =>
       if String.eqb persona_name "pendo"
       then "Consider a career in solar; equity programs can help."
       else "Advice from " +:+ persona_name |}.

(** A supervisor agent whose answer matches no keyword. *)
Definition env_plain : Node.Env :=
  {| Node.search_knowledge_base := fun _ => JList [];
     Node.get_ecosystem_partners := fun _ => JList [];
     Node.validation_detail := fun _ => "Input should be a valid dictionary";
     Node.execute_agent := fun _ _ _ _ => "Massachusetts has many solar installers." |}.

Definition state_of (msgs : option (list string)) : Node.State :=
  {| Node.messages := msgs; Node.specialists_to_call := None;
     Node.routing_reasons := None; Node.context := None;
     Node.specialist_responses := None; Node.feedback := None;
     Node.error := None; Node.final_response := None |}.

Definition state_hello : Node.State := state_of (Some ["How do I start?"]).

(** The state at the checkpoint after the supervisor matched two
    specialists. *)
Definition state_two_matched : Node.State :=
  {| Node.messages := Some ["How do I start?"];
     Node.specialists_to_call := Some ["liv"; "jasmine"];
     Node.routing_reasons :=
       Some ["Career development expertise needed";
             "Environmental justice expertise needed"];
     Node.context := Some Node.empty_context;
     Node.specialist_responses := None; Node.feedback := None;
     Node.error := None; Node.final_response := None |}.

Definition state_with_responses (entries : list (string * string)) : Node.State :=
  {| Node.messages := Some ["How do I start?"];
     Node.specialists_to_call := None; Node.routing_reasons := None;
     Node.context := None; Node.specialist_responses := Some entries;
     Node.feedback := None; Node.error := None;
     Node.final_response := None |}.

End Samples.

(** ** [tools.py]: the remaining tools *)

Module Toolbox.
Import ToolInterface.

(** A calendar date, as [datetime.date] exposes it. *)
Record Date := { year : Z; month : Z; day : Z }.

(** A predicate added to a table query. *)
Inductive Predicate :=
| Ilike (column pattern : string)
| Eq (column : string) (value : Json).

(** Calls to the collaborators of these tools, in the order issued. *)
Inductive ExtCall :=
| TavilyInvoke (max_results : nat) (query : string)
| TableSelect (table : string) (predicates : list Predicate)
| SupabaseRpc (fn : string) (params : Row)
| SimilaritySearch (query : string) (k : nat) (filter : Row)
| WebLoad (url : string)
| AddTexts (texts : list string) (metadatas : list Row).

(** The outcome of every collaborator call. [render] is [str] on values
    that are not strings, [type_name] is [type(_).__name__],
    [validation_detail] is the text of the [ValidationError] for a refused
    argument; [strptime] is [None] where
    [datetime.strptime(_, "%Y-%m-%d")] raises [ValueError]. *)
Record Services := {
  strptime : string -> option Date;
  today : Date;
  render : Json -> string;
  type_name : Json -> string;
  validation_detail : Json -> string;
  tavily_invoke : nat -> string -> Exn + list Json;
  table_select : string -> list Predicate -> Exn + Json;
  supabase_rpc : string -> Row -> Exn + Json;
  similarity_search : string -> nat -> Row -> Exn + list Tools.Document;
  web_load : string -> Exn + list Tools.Document;
  add_texts : list string -> list Row -> Exn + unit
}.

(** The calls issued so far and the local list [formatted_results] of the
    web tools. *)
Record ToolFrame := {
  ext_calls : list ExtCall;
  formatted_results : list string
}.

Definition log_call (c : ExtCall) : Eff ToolFrame unit :=
  Eff.modify (fun fr =>
    {| ext_calls := ext_calls fr ++ [c]; formatted_results := formatted_results fr |}).

Definition set_formatted (l : list string) : Eff ToolFrame unit :=
  Eff.modify (fun fr => {| ext_calls := ext_calls fr; formatted_results := l |}).

Definition append_formatted (s : string) : Eff ToolFrame unit :=
  Eff.modify (fun fr =>
    {| ext_calls := ext_calls fr; formatted_results := formatted_results fr ++ [s] |}).

Definition get_formatted : Eff ToolFrame (list string) :=
  fun fr => (inr (formatted_results fr), fr).

(** The [AttributeError] of a missing attribute on a value of type
    [owner]. *)
Definition no_attribute (owner attr : string) : Exn :=
  MkExn "AttributeError"
        ("'" +:+ owner +:+ "' object has no attribute '" +:+ attr +:+ "'").

(** [str(v)] as an f-string applies it. *)
Definition py_str (render : Json -> string) (v : Json) : string :=
  match v with
  | JStr s => s
  | _ => render v
  end.

(** [(a1, a2) < (b1, b2)] on pairs of integers. *)
Definition pair_lt (a b : Z * Z) : bool :=
  (fst a <? fst b)%Z || ((fst a =? fst b)%Z && (snd a <? snd b)%Z).

Definition age_result (is_valid : bool) (message : string) : Json :=
  JObj [("is_valid", JBool is_valid); ("message", JStr message)].

Section Run.
Variable supabase_available : bool.
Variable vector_store : bool.
Variable w : Services.

(** The age line 134 computes. *)
Definition age_of (birth : Date) : Z :=
  (year (today w) - year birth
   - (if pair_lt (month (today w), day (today w)) (month birth, day birth)
      then 1 else 0))%Z.

(** [validate_user_age] *)
Definition validate_user_age (birth_date : string) : Json :=
  match strptime w birth_date with
  | Some birth =>
      let age := age_of birth in
      age_result (10 <? age)%Z
                 (if (10 <? age)%Z then "Age verification successful"
                  else "Users must be over 10 years old")
  | None => age_result false "Invalid date format. Use YYYY-MM-DD"
  end.

(** [query.execute()] on the partner table. *)
Definition execute_select (table : string) (predicates : list Predicate)
  : Eff ToolFrame Json :=
  log_call (TableSelect table predicates) >>
  Eff.lift (table_select w table predicates).

(** The predicate one filter adds (lines 457-460). *)
Definition predicate_of (filter : string * Json) : Predicate :=
  match snd filter with
  | JStr value => Ilike (fst filter) ("%" +:+ value +:+ "%")
  | value => Eq (fst filter) value
  end.

(** [filters.items()]: only a dictionary has it. *)
Definition items_of (filters : Json) : Exn + Row :=
  match filters with
  | JObj kv => inr kv
  | _ => inl (no_attribute (type_name w filters) "items")
  end.

(** The function under the decorator, [get_ecosystem_partners.func];
    [filters] is [JNull] when omitted. The query under construction is the
    list of its predicates. *)
Definition get_ecosystem_partners_func (filters : Json) : Eff ToolFrame Json :=
  if negb supabase_available then
    Eff.ret (JList [JObj [("error", JStr "Database is not available")]])
  else
    Eff.try_catch
      (let* query :=
         (if truthy filters then
            let* items := Eff.lift (items_of filters) in
            Eff.ret (fold_left (fun query filter => query ++ [predicate_of filter])
                               items [])
          else Eff.ret []) in
       let* data := execute_select "partner_organizations" query in
       Eff.ret (if truthy data then data else JList []))
      (fun _ => Eff.ret (JList [])).

(** [get_ecosystem_partners], the exported tool: the wrapper refuses an
    argument that is neither [None] nor a dictionary before the function
    runs. *)
Definition get_ecosystem_partners (filters : Json) : Eff ToolFrame Json :=
  if is_optional_dict filters then get_ecosystem_partners_func filters
  else Eff.raise (validation_error (validation_detail w filters)).

(** One line of a web tool's answer (the loop body of lines 503-506). *)
Definition format_source (i : nat) (doc : Json) : Exn + string :=
  match doc with
  | JObj kv =>
      let source := dict_get kv "url" (JStr "unknown source") in
      let content := dict_get kv "content" (JStr "") in
      inr ("Source " +:+ pretty (i + 1)%nat +:+ " (" +:+ py_str (render w) source
           +:+ "): " +:+ py_str (render w) content)
  | _ => inl (no_attribute (type_name w doc) "get")
  end.

(** [for i, doc in enumerate(results): ...], counting from [i]. *)
Fixpoint format_loop (i : nat) (results : list Json) : Eff ToolFrame unit :=
  match results with
  | [] => Eff.ret tt
  | doc :: rest =>
      let* line := Eff.lift (format_source i doc) in
      append_formatted line >>
      format_loop (S i) rest
  end.

Definition blank_line : string := Node.nl +:+ Node.nl.

(** The body the eight web tools share: they differ in the query they
    build and in the prefix of their error text. *)
Definition web_tool (enhanced_query error_prefix : string) : Eff ToolFrame string :=
  Eff.try_catch
    (log_call (TavilyInvoke 3 enhanced_query) >>
     let* results := Eff.lift (tavily_invoke w 3 enhanced_query) in
     set_formatted [] >>
     format_loop 0 results >>
     let* formatted_results := get_formatted in
     Eff.ret (Text.join blank_line formatted_results))
    (fun e => Eff.ret (error_prefix +:+ exn_msg e)).

Definition search_clean_energy_web (query : string) : Eff ToolFrame string :=
  web_tool ("Massachusetts clean energy " +:+ query) "Error searching web: ".

Definition ecosystem_partners : list string :=
  ["MassCEC"; "Mass Save"; "Urban League of Eastern Massachusetts"; "ACT";
   "Greentown Labs"; "TPS Energy"; "Headlamp"; "Franklin Cummings Tech";
   "MassHire"; "African Bridge Network"].

Definition search_massachusetts_resources (query : string) : Eff ToolFrame string :=
  let partner_string := Text.join " OR " ecosystem_partners in
  web_tool ("Massachusetts (" +:+ partner_string +:+ ") " +:+ query
            +:+ " clean energy workforce")
           "Error searching resources: ".

Definition locate_ej_training_resources (location : string) : Eff ToolFrame string :=
  web_tool ("Massachusetts " +:+ location
            +:+ " clean energy training accessibility Gateway City Environmental Justice")
           "Error locating EJ resources: ".

Definition find_dei_programs (group : string) : Eff ToolFrame string :=
  web_tool ("Massachusetts clean energy " +:+ group
            +:+ " diversity equity inclusion workforce programs")
           "Error finding DEI programs: ".

Definition translate_military_occupation (military_code : string)
  : Eff ToolFrame string :=
  web_tool ("military " +:+ military_code
            +:+ " civilian equivalent clean energy career Massachusetts")
           "Error translating military occupation: ".

Definition find_veteran_benefits (benefit_type : string) : Eff ToolFrame string :=
  web_tool ("Massachusetts veteran " +:+ benefit_type
            +:+ " clean energy training education benefit")
           "Error finding veteran benefits: ".

Definition evaluate_international_credential (credential country : string)
  : Eff ToolFrame string :=
  web_tool (country +:+ " " +:+ credential
            +:+ " US equivalent Massachusetts clean energy license")
           "Error evaluating credentials: ".

Definition find_international_integration_resources (nationality : string)
  : Eff ToolFrame string :=
  web_tool ("Massachusetts " +:+ nationality
            +:+ " immigrant professional integration clean energy workforce")
           "Error finding integration resources: ".

(** [supabase.rpc(fn, params).execute().data]; [supabase] is [None] when
    the clients could not be set up. *)
Definition rpc_data (fn : string) (params : Row) : Eff ToolFrame Json :=
  if supabase_available then
    log_call (SupabaseRpc fn params) >> Eff.lift (supabase_rpc w fn params)
  else Eff.raise (no_attribute "NoneType" "rpc").

(** [response.data.get(key, [])] *)
Definition data_get (data : Json) (key : string) : Exn + Json :=
  match data with
  | JObj kv => inr (dict_get kv key (JList []))
  | _ => inl (no_attribute (type_name w data) "get")
  end.

(** [analyze_resume] *)
Definition analyze_resume (resume_text : string) : Eff ToolFrame Json :=
  Eff.try_catch
    (let* data := rpc_data "analyze_resume"
                    [("resume_content", JStr resume_text);
                     ("sector", JStr "clean_energy")] in
     let* skills := Eff.lift (data_get data "skills") in
     let* experience := Eff.lift (data_get data "experience") in
     let* education := Eff.lift (data_get data "education") in
     let* gaps := Eff.lift (data_get data "gaps") in
     let* recommendations := Eff.lift (data_get data "recommendations") in
     Eff.ret (JObj [("skills", skills); ("experience", experience);
                    ("education", education); ("gaps", gaps);
                    ("recommendations", recommendations)]))
    (fun _ => Eff.ret (JObj [])).

(** The body of the wrappers that return [response.data if response.data
    else default], and [default] on any exception. *)
Definition rpc_or_default (fn : string) (params : Row) (default : Json)
  : Eff ToolFrame Json :=
  Eff.try_catch
    (let* data := rpc_data fn params in
     Eff.ret (if truthy data then data else default))
    (fun _ => Eff.ret default).

Definition strings (l : list string) : Json := JList (map JStr l).

Definition get_career_paths (current_role : string) : Eff ToolFrame Json :=
  rpc_or_default "get_career_paths" [("current_role", JStr current_role)]
                 (JList []).

Definition find_training_resources (skills : list string) : Eff ToolFrame Json :=
  rpc_or_default "find_training_resources" [("required_skills", strings skills)]
                 (JList []).

Definition match_jobs (skills : list string) (experience_level : string)
  : Eff ToolFrame Json :=
  rpc_or_default "match_jobs"
                 [("candidate_skills", strings skills);
                  ("experience_level", JStr experience_level)]
                 (JList []).

Definition create_development_plan (current_skills : list string)
  (target_role : string) : Eff ToolFrame Json :=
  rpc_or_default "create_development_plan"
                 [("current_skills", strings current_skills);
                  ("target_role", JStr target_role)]
                 (JObj []).

Definition search_ej_programs (location : string) : Eff ToolFrame Json :=
  rpc_or_default "search_ej_programs" [("location", JStr location)] (JList []).

Definition translate_military_skills (mos_code : string) : Eff ToolFrame Json :=
  rpc_or_default "translate_military_skills" [("mos_code", JStr mos_code)]
                 (JObj []).

Definition evaluate_credentials (credentials : Json) (country : string)
  : Eff ToolFrame Json :=
  rpc_or_default "evaluate_credentials"
                 [("credentials", credentials); ("origin_country", JStr country)]
                 (JObj []).

(** The body of the vector-store tools of lines 143-271: no [try] block. A
    missing filter is the empty dictionary. *)
Definition similarity_tool (query : string) (k : nat) (filter : Row)
  : Eff ToolFrame string :=
  if vector_store then
    log_call (SimilaritySearch query k filter) >>
    let* results := Eff.lift (similarity_search w query k filter) in
    Eff.ret (Text.join blank_line (map Tools.page_content results))
  else Eff.raise (no_attribute "NoneType" "similarity_search").

Definition search_ecosystem_partners (query : string) : Eff ToolFrame string :=
  similarity_tool query 5 [("region", JStr "massachusetts")].

Definition get_partner_programs (partner_name : string) : Eff ToolFrame string :=
  similarity_tool
    ("educational programs and resources from " +:+ partner_name
     +:+ " in Massachusetts climate sector")
    3 [("type", JStr "program"); ("partner", JStr partner_name)].

Definition search_ecosystem_jobs (job_title location : string) : Eff ToolFrame string :=
  similarity_tool ("climate jobs " +:+ job_title +:+ " " +:+ location) 5
    [("type", JStr "job_posting"); ("status", JStr "active");
     ("region", JStr "massachusetts")].

Definition get_training_programs (skill_area : string) : Eff ToolFrame string :=
  similarity_tool
    ("training programs in " +:+ skill_area +:+ " Massachusetts climate sector")
    3 [("type", JStr "training_program"); ("status", JStr "active")].

Definition international_credential_evaluation (credentials country : string)
  : Eff ToolFrame string :=
  similarity_tool
    ("credential evaluation standards " +:+ credentials +:+ " " +:+ country
     +:+ " Massachusetts climate sector")
    3 [].

Definition find_ej_opportunities (location : string) : Eff ToolFrame string :=
  similarity_tool
    ("environmental justice opportunities " +:+ location +:+ " Massachusetts")
    3 [("category", JStr "environmental_justice")].

Definition translate_military_experience (mos_code : string) : Eff ToolFrame string :=
  similarity_tool
    ("military " +:+ mos_code +:+ " civilian equivalent Massachusetts climate sector")
    3 [("category", JStr "veteran_opportunities")].


(** The body [analyze_linkedin_profile] and [analyze_personal_website]
    share: load the page, take the first document, store its text, return
    the fixed [analysis]. *)
Definition analyze_page (url source what : string) (analysis : Json)
  : Eff ToolFrame Json :=
  Eff.try_catch
    (log_call (WebLoad url) >>
     let* docs := Eff.lift (web_load w url) in
     match docs with
     | [] => Eff.raise Node.index_error
     | doc :: _ =>
         let content := Tools.page_content doc in
         let metadatas := [[("source", JStr source); ("url", JStr url)]] in
         (if vector_store then
            log_call (AddTexts [content] metadatas) >>
            Eff.lift (add_texts w [content] metadatas)
          else Eff.raise (no_attribute "NoneType" "add_texts")) >>
         Eff.ret analysis
     end)
    (fun e =>
       Eff.ret (JObj [("error",
                       JStr ("Failed to analyze " +:+ what +:+ ": " +:+ exn_msg e))])).

Definition analyze_linkedin_profile (linkedin_url : string) : Eff ToolFrame Json :=
  analyze_page linkedin_url "linkedin" "LinkedIn profile"
    (JObj [("experience", JList []); ("education", JList []);
           ("skills", JList []); ("climate_relevant_experience", JBool false);
           ("international_experience", JBool false);
           ("veteran_status", JBool false)]).

Definition analyze_personal_website (website_url : string) : Eff ToolFrame Json :=
  analyze_page website_url "personal_website" "personal website"
    (JObj [("projects", JList []); ("interests", JList []);
           ("climate_related_content", JBool false)]).

End Run.

End Toolbox.

(** ** Vocabulary of the further statements *)

Module Extra.
Import Tools Cascade.

(** Redis is set up on the client side and the server answers. *)
Definition cache_usable (cfg : Config) (w : World) : Prop :=
  redis_available cfg = true /\ redis_client cfg = true /\
  redis_reachable w = true.

(** The backend operation a call performs, numbered in cascade order. *)
Definition kind (c : Call) : nat :=
  match c with
  | CacheGet _ => 1
  | VectorSearch _ _ => 2
  | EmbedQuery _ => 3
  | RpcMatchDocuments _ _ => 4
  | PgConnect => 5
  | PgExecute _ => 6
  | TableIlike _ _ _ _ => 7
  | CacheSetex _ _ _ => 8
  end.

Fixpoint strictly_ascending (l : list nat) : Prop :=
  match l with
  | [] => True
  | x :: l' =>
      match l' with [] => True | y :: _ => (x < y)%nat end
      /\ strictly_ascending l'
  end.

(** The calls [cs] perform operations [lo..hi], each at most once and in
    order. *)
Definition kinds_in (lo hi : nat) (cs : list Call) : Prop :=
  Forall (fun c => (lo <= kind c <= hi)%nat) cs /\
  strictly_ascending (map kind cs).

(** A result dictionary of strategies 2-5: exactly these six keys. *)
Definition is_kb_record (r : Json) : Prop :=
  exists id content title summary metadata similarity,
    r = JObj [("id", id); ("content", content); ("title", title);
              ("summary", summary); ("metadata", metadata);
              ("similarity", similarity)].

Definition similarity_of (r : Json) : Json :=
  match r with
  | JObj kv => dict_get kv "similarity" JNull
  | _ => JNull
  end.

(** The tokens the keyword fallbacks work from. *)
Definition tokens (query : string) : list string :=
  Text.split (Text.lower query).

End Extra.

Module TurnVocab.

(** The reason the supervisor records for each specialist. *)
Definition reason_table : list (string * string) :=
  [("liv", "Career development expertise needed");
   ("jasmine", "Environmental justice expertise needed");
   ("marcus", "Veteran transition expertise needed");
   ("miguel", "International professional expertise needed")].

End TurnVocab.

Module ToolboxVocab.
Import Toolbox.

(** On [today] the [n]-th anniversary of [birth] has been reached. *)
Definition anniversary_reached (n : Z) (today birth : Date) : Prop :=
  (year birth + n < year today)%Z \/
  ((year birth + n = year today)%Z /\
   ((month birth < month today)%Z \/
    ((month birth = month today)%Z /\ (day birth <= day today)%Z))).

(** The lines a web tool has formatted when its loop stops, numbering from
    [i + 1], and the exception that stopped it. *)
Fixpoint formatted (w : Services) (i : nat) (docs : list Json)
  : list string * option Exn :=
  match docs with
  | [] => ([], None)
  | doc :: rest =>
      match format_source w i doc with
      | inl e => ([], Some e)
      | inr line => let '(lines, o) := formatted w (S i) rest in (line :: lines, o)
      end
  end.

Definition is_dict (v : Json) : Prop := exists kv, v = JObj kv.

(** The tool asks the search backend once, for three results, with a query
    that contains the caller's text. *)
Definition forwards (tool : string -> Eff ToolFrame string) : Prop :=
  forall text fr,
    exists query,
      ext_calls (snd (tool text fr)) = ext_calls fr ++ [TavilyInvoke 3 query] /\
      Text.contains text query = true.

Definition linkedin_template : Json :=
  JObj [("experience", JList []); ("education", JList []);
        ("skills", JList []); ("climate_relevant_experience", JBool false);
        ("international_experience", JBool false);
        ("veteran_status", JBool false)].

End ToolboxVocab.

Module MoreSamples.
Import Toolbox.

(** The similarity search is down; the RPC answers with one row and one
    element that is no dictionary, so its loop raises after the first
    record; the direct connection answers. *)
Definition world_rpc_partial : Tools.World :=
  {| Tools.redis_reachable := true;
     Tools.similarity_search_with_score := fun _ _ => inl Samples.down;
     Tools.embed_query := fun _ => inr [1 # 10; 2 # 10];
     Tools.rpc_match_documents := fun _ _ _ =>
       inr [JObj [("id", JStr "rpc-1"); ("content", JStr "Wind jobs")];
            JStr "malformed"];
     Tools.pg_connect := true;
     Tools.pg_execute := fun _ => inr [Samples.row_solar];
     Tools.table_ilike := fun _ _ _ _ => inl Samples.down |}.

Definition doc_masscec : Json :=
  JObj [("url", JStr "https://www.masscec.com/jobs");
        ("content", JStr "Clean energy jobs in Massachusetts")].

Definition doc_without_url : Json :=
  JObj [("content", JStr "Workforce training grants")].

(** Today is 17 May 2021; the search backend answers with two documents. *)
Definition toolbox_world : Services :=
  {| strptime := fun s =>
       if String.eqb s "2010-05-17"
       then Some {| year := 2010; month := 5; day := 17 |}
       else if String.eqb s "2010-05-18"
            then Some {| year := 2010; month := 5; day := 18 |}
            else None;
     today := {| year := 2021; month := 5; day := 17 |};
     render := fun _ => "<object>";
     type_name := fun _ => "str";
     validation_detail := fun _ => "Input should be a valid dictionary";
     tavily_invoke := fun _ _ => inr [doc_masscec; doc_without_url];
     table_select := fun _ _ => inr (JList []);
     supabase_rpc := fun _ _ => inl Samples.down;
     similarity_search := fun _ _ _ => inl Samples.down;
     web_load := fun _ => inl Samples.down;
     add_texts := fun _ _ => inl Samples.down |}.

Definition toolbox_frame : ToolFrame := {| ext_calls := []; formatted_results := [] |}.

End MoreSamples.

(** * Properties *)

(** ** The effect monad *)

Module EffFacts.

Lemma bind_run {St A B} (m : Eff St A) (k : A -> Eff St B) s :
  Eff.bind m k s =
  match m s with (inr a, s') => k a s' | (inl e, s') => (inl e, s') end.
Proof. reflexivity. Qed.

Lemma try_catch_run {St A} (m : Eff St A) (h : Exn -> Eff St A) s :
  Eff.try_catch m h s =
  match m s with (inr a, s') => (inr a, s') | (inl e, s') => h e s' end.
Proof. reflexivity. Qed.

Lemma ret_run {St A} (a : A) (s : St) : Eff.ret a s = (inr a, s).
Proof. reflexivity. Qed.
Lemma raise_run {St A} (e : Exn) (s : St) : @Eff.raise St A e s = (inl e, s).
Proof. reflexivity. Qed.
Lemma lift_run {St A} (r : Exn + A) (s : St) : Eff.lift r s = (r, s).
Proof. reflexivity. Qed.
Lemma get_run {St} (s : St) : Eff.get s = (inr s, s).
Proof. reflexivity. Qed.
Lemma modify_run {St} (f : St -> St) (s : St) : Eff.modify f s = (inr tt, f s).
Proof. reflexivity. Qed.
Lemma for_each_ext {St A} (l : list A) (body body' : A -> Eff St unit) s :
  (forall x s', body x s' = body' x s') ->
  Eff.for_each l body s = Eff.for_each l body' s.
Proof.
  intros Hext. revert s. induction l as [|x l IH]; intros s; simpl; [reflexivity|].
  rewrite !bind_run, Hext. destruct (body' x s) as [[e|[]] s']; auto.
Qed.

End EffFacts.

(** ** The resolution cascade *)

Module CascadeFacts.
Import Tools Cascade EffFacts.

Lemma frame_eq (fr fr' : Frame) :
  redis fr = redis fr' -> calls fr = calls fr' -> results fr = results fr' ->
  fr = fr'.
Proof. destruct fr, fr'; simpl; intros; subst; reflexivity. Qed.

Ltac frame :=
  try (apply (f_equal2 pair); [reflexivity|]);
  apply frame_eq; simpl;
  rewrite ?app_nil_r, <- ?app_assoc; simpl; try reflexivity.

Lemma log_run c fr :
  log c fr = (inr tt, {| redis := redis fr; calls := calls fr ++ [c];
                         results := results fr |}).
Proof. reflexivity. Qed.
Lemma set_results_run rs fr :
  set_results rs fr = (inr tt, {| redis := redis fr; calls := calls fr;
                                  results := rs |}).
Proof. reflexivity. Qed.
Lemma get_results_run fr : get_results fr = (inr (results fr), fr).
Proof. reflexivity. Qed.

Ltac eff :=
  repeat (progress (rewrite ?bind_run, ?try_catch_run, ?ret_run, ?raise_run,
                      ?lift_run, ?get_run, ?modify_run, ?log_run,
                      ?set_results_run, ?get_results_run;
                    cbv beta iota;
                    cbn [fst snd redis calls results])).

Lemma extend_nil fr : extend fr [] [] = fr.
Proof. apply frame_eq; simpl; auto using app_nil_r. Qed.

Lemma extend_extend fr cs rs cs' rs' :
  extend (extend fr cs rs) cs' rs' = extend fr (cs ++ cs') (rs ++ rs').
Proof. apply frame_eq; simpl; auto using app_assoc; symmetry; apply app_assoc. Qed.

Lemma for_each_converted {A} (conv : A -> Exn + Json) (l : list A) fr :
  exists r,
    Eff.for_each l (fun item => let* r := Eff.lift (conv item) in append_result r) fr
    = (r, extend fr [] (fst (converted conv l))) /\
    (match snd (converted conv l) with Some e => r = inl e | None => r = inr tt end).
Proof.
  set (body := fun item => let* r := Eff.lift (conv item) in append_result r).
  revert fr. induction l as [|x l IH]; intros fr.
  - exists (inr tt). simpl. unfold Eff.ret. rewrite extend_nil. auto.
  - cbn [Eff.for_each converted]. rewrite bind_run.
    unfold body at 1. rewrite bind_run. unfold Eff.lift.
    destruct (conv x) as [e|r] eqn:Hx.
    + exists (inl e). simpl. rewrite extend_nil. auto.
    + unfold append_result, Eff.modify.
      destruct (IH {| redis := redis fr; calls := calls fr; results := results fr ++ [r] |})
        as (r0 & Hrun & Hr0).
      rewrite Hrun. destruct (converted conv l) as [rs o]; simpl in *.
      exists r0; split; [|exact Hr0].
      f_equal. apply frame_eq; simpl; auto. rewrite <- app_assoc. reflexivity.
Qed.

Lemma for_each_appended {A} (f : A -> Json) (l : list A) fr :
  Eff.for_each l (fun item => append_result (f item)) fr
  = (inr tt, extend fr [] (map f l)).
Proof.
  revert fr. induction l as [|x l IH]; intros fr; simpl.
  - unfold Eff.ret. rewrite extend_nil. reflexivity.
  - rewrite bind_run. unfold append_result, Eff.modify. rewrite IH.
    f_equal. apply frame_eq; simpl; auto. rewrite <- app_assoc. reflexivity.
Qed.

Lemma get_from_cache_run cfg w now key fr :
  get_from_cache cfg w now key fr
  = (inr (probe cfg w now fr key), extend fr (probe_calls cfg key) []).
Proof.
  unfold get_from_cache, probe, probe_calls. rewrite try_catch_run.
  destruct (redis_available cfg), (redis_client cfg); simpl;
    try (unfold Eff.ret; rewrite extend_nil; reflexivity).
  unfold redis_get. rewrite !bind_run. unfold log, Eff.modify.
  destruct (redis_reachable w); simpl; [|frame].
  destruct (redis fr !! key) as [[v expiry]|] eqn:Hk; simpl;
    rewrite ?Hk; simpl; [|frame].
  destruct (now <? expiry)%nat; simpl.
  - destruct v as [j|s]; simpl; [frame|].
    destruct (negb (s =? "")%string); frame.
  - destruct v; frame.
Qed.

Lemma set_in_cache_run cfg w now key value expire fr :
  exists b, set_in_cache cfg w now key value expire fr
            = (inr b, after_set cfg w now key value expire fr).
Proof.
  unfold set_in_cache, after_set. rewrite try_catch_run.
  destruct (negb (redis_available cfg) || negb (redis_client cfg)).
  - eexists; reflexivity.
  - rewrite bind_run. unfold Eff.lift, json_dumps.
    destruct (serialisable value).
    + unfold redis_setex. rewrite !bind_run. unfold log, Eff.modify.
      destruct (redis_reachable w); simpl; [|eexists; reflexivity].
      destruct (expire_accepted expire); simpl; eexists; reflexivity.
    + eexists; reflexivity.
Qed.

Lemma vector_strategy_run cfg w query fr :
  vector_strategy cfg w query fr
  = (inr tt, extend fr (vector_calls cfg query)
                    (records_of (vector_outcome cfg w query))).
Proof.
  unfold vector_strategy, vector_calls, vector_outcome.
  destruct (vector_store cfg).
  - rewrite try_catch_run, !bind_run. unfold log, Eff.modify, Eff.lift.
    destruct (similarity_search_with_score w query 5) as [e|docs]; simpl.
    + frame.
    + eff. rewrite (for_each_ext _ _
                 (fun item => append_result
                    ((fun '(doc, score) => vector_record doc score) item)))
        by (intros [doc score] s'; reflexivity).
      rewrite for_each_appended. frame.
  - unfold Eff.ret. rewrite extend_nil. reflexivity.
Qed.

Lemma loop_run {A} (conv : A -> Exn + Json) (data : list A) fr :
  exists r,
    Eff.for_each data
      (fun item => let* r := Eff.lift (conv item) in append_result r) fr
    = (r, extend fr [] (records_of (loop_outcome conv data))) /\
    (if has_raised (loop_outcome conv data)
     then exists e, r = inl e else r = inr tt).
Proof.
  destruct (for_each_converted conv data fr) as (r & Hrun & Hr).
  exists r. unfold loop_outcome. rewrite Hrun.
  destruct (converted conv data) as [rs [e|]]; simpl in *; eauto.
Qed.

Lemma rpc_try_run w query (h : Eff Frame unit) fr :
  Eff.try_catch (rpc_body w query) (fun _ => h) fr
  = let fr' := extend fr (rpc_calls w query) (records_of (rpc_outcome w query)) in
    if has_raised (rpc_outcome w query) then h fr' else (inr tt, fr').
Proof.
  unfold rpc_body, rpc_calls, rpc_outcome. eff.
  destruct (embed_query w query) as [e|v]; simpl.
  { f_equal. frame. }
  eff. destruct (rpc_match_documents w v 5 "") as [e|data]; simpl.
  { f_equal. frame. }
  destruct data as [|item data]; cbn [is_nil]; cbv iota.
  { unfold loop_outcome; simpl. frame. }
  match goal with
  | |- context [Eff.for_each ?l _ ?f] =>
      destruct (loop_run rpc_record l f) as (r & Hrun & Hr)
  end.
  rewrite Hrun.
  destruct (has_raised (loop_outcome rpc_record (item :: data))).
  - destruct Hr as [e ->]. f_equal. frame.
  - subst r. frame.
Qed.

Lemma direct_db_query_run w sql fr :
  direct_db_query w sql fr
  = (inr (if pg_connect w then
            match pg_execute w sql with inl _ => [] | inr rows => rows end
          else []),
     extend fr (if pg_connect w then [PgConnect; PgExecute sql] else [PgConnect]) []).
Proof.
  unfold direct_db_query, get_db_connection. eff.
  destruct (pg_connect w); simpl; eff; [|frame].
  destruct (pg_execute w sql); frame.
Qed.

Lemma direct_strategy_run w query fr :
  direct_strategy w query fr
  = (inr tt, extend fr (direct_calls w query)
                    (records_of (direct_outcome w query))).
Proof.
  unfold direct_strategy, direct_calls, direct_outcome, direct_sql. eff.
  destruct (Text.split (Text.lower query)) as [|k ks] eqn:Hks; cbn [is_nil]; cbv iota.
  { simpl. rewrite extend_nil. reflexivity. }
  destruct (conditions_of (k :: ks)) as [|c cs] eqn:Hc; cbn [is_nil]; cbv iota.
  { simpl. rewrite extend_nil. reflexivity. }
  eff. rewrite direct_db_query_run.
  destruct (pg_connect w); simpl; [|frame].
  destruct (pg_execute w _) as [e|rows]; simpl; [frame|].
  destruct rows as [|row rows]; cbn [is_nil]; cbv iota; [frame|].
  rewrite for_each_appended. frame.
Qed.

Lemma keyword_strategy_run w query fr :
  keyword_strategy w query fr
  = (inr tt, extend fr (keyword_calls query)
                    (records_of (keyword_outcome w query))).
Proof.
  unfold keyword_strategy, keyword_calls, keyword_outcome, keyword_pattern. eff.
  destruct (Text.split (Text.lower query)) as [|k ks] eqn:Hks.
  { simpl. rewrite extend_nil. reflexivity. }
  eff. destruct (table_ilike w _ _ _ 5) as [e|data]; simpl; [frame|].
  destruct data as [|item data]; cbn [is_nil]; cbv iota.
  { unfold loop_outcome; simpl. frame. }
  match goal with
  | |- context [Eff.for_each ?l _ ?f] =>
      destruct (loop_run keyword_record l f) as (r & Hrun & Hr)
  end.
  rewrite Hrun.
  destruct (has_raised (loop_outcome keyword_record (item :: data))).
  - destruct Hr as [e ->]. frame.
  - subst r. frame.
Qed.

Lemma rpc_handler_run w query fr :
  rpc_handler w query fr
  = (inr tt, extend fr (handler_calls w query (results fr))
                    (handler_records w query (results fr))).
Proof.
  unfold rpc_handler, handler_calls, handler_records. eff.
  rewrite direct_strategy_run. eff. unfold extend at 1. cbn [results].
  destruct (is_nil (results fr ++ records_of (direct_outcome w query))).
  - rewrite keyword_strategy_run, extend_extend. reflexivity.
  - eff. frame.
Qed.

Lemma run_strategies_run cfg w query fr :
  run_strategies cfg w query fr
  = (inr tt, {| redis := redis fr;
                calls := calls fr ++ cascade_calls cfg w query;
                results := cascade_records cfg w query |}).
Proof.
  unfold run_strategies, cascade_calls, cascade_records. eff.
  rewrite vector_strategy_run. eff. unfold extend at 1 2. cbn [results app].
  destruct (records_of (vector_outcome cfg w query)) as [|r rs] eqn:Hv;
    cbn [is_nil]; cbv iota.
  - rewrite rpc_try_run. cbv zeta.
    destruct (has_raised (rpc_outcome w query)).
    + rewrite rpc_handler_run. unfold extend. cbn [results calls redis app]. frame.
    + frame.
  - eff. frame.
Qed.

(** The whole function, as one equation. *)
Lemma search_knowledge_base_run cfg w now query fr :
  search_knowledge_base cfg w now query fr
  = if configured cfg then
      let cached := probe cfg w now fr (cache_key_of query) in
      if truthy cached
      then (inr cached, extend fr (probe_calls cfg (cache_key_of query)) [])
      else (inr (JList (cascade_records cfg w query)),
            after_miss cfg w now query fr)
    else (inr unavailable_result, fr).
Proof.
  unfold search_knowledge_base, configured.
  destruct (supabase_available cfg || option_truthy (DB_USER cfg)) eqn:Hc.
  2: { apply orb_false_iff in Hc as [-> ->]. reflexivity. }
  replace (negb (supabase_available cfg) && negb (option_truthy (DB_USER cfg)))
    with false
    by (destruct (supabase_available cfg), (option_truthy (DB_USER cfg));
        simpl in *; congruence).
  eff.
  assert (Hprobe :
      (if redis_available cfg then get_from_cache cfg w now (cache_key_of query)
       else Eff.ret JNull) fr
      = (inr (probe cfg w now fr (cache_key_of query)),
         extend fr (probe_calls cfg (cache_key_of query)) []))
    by (destruct (redis_available cfg) eqn:Hr;
        [apply get_from_cache_run
        | unfold probe, probe_calls; rewrite Hr; rewrite ret_run, extend_nil;
          reflexivity]).
  rewrite Hprobe; clear Hprobe; eff.
  destruct (truthy (probe cfg w now fr (cache_key_of query))); eff;
    [reflexivity|].
  rewrite run_strategies_run. eff. unfold after_miss, extend.
  cbn [results calls redis].
  destruct (redis_available cfg && negb (is_nil (cascade_records cfg w query))); eff.
  - match goal with
    | |- context [set_in_cache ?c ?ww ?n ?k ?v ?e ?f] =>
        destruct (set_in_cache_run c ww n k v e f) as [b Hset]; rewrite Hset
    end.
    eff. f_equal. f_equal. frame.
  - frame.
Qed.

(** *** Shape of the call trace *)

Lemma within_nil lo hi : within lo hi [].
Proof. split; [constructor | exact I]. Qed.

Lemma within_weaken lo hi lo' hi' cs :
  within lo hi cs -> (lo' <= lo)%nat -> (hi <= hi')%nat -> within lo' hi' cs.
Proof.
  intros [Hall Hasc] ? ?. split; [|exact Hasc].
  eapply Forall_impl; [exact Hall|]. simpl. intros; lia.
Qed.

Lemma ascending_app l1 l2 :
  ascending l1 -> ascending l2 ->
  (forall x y, In x l1 -> In y l2 -> (x <= y)%nat) ->
  ascending (l1 ++ l2).
Proof.
  induction l1 as [|x l1 IH]; intros H1 H2 Hle; simpl; [exact H2|].
  destruct H1 as [Hx H1]. split.
  - destruct l1 as [|y l1]; simpl.
    + destruct l2 as [|y l2]; [exact I|]. apply Hle; simpl; auto.
    + exact Hx.
  - apply IH; auto. intros; apply Hle; simpl; auto.
Qed.

Lemma within_app lo mid mid' hi cs1 cs2 :
  within lo mid cs1 -> within mid' hi cs2 -> (mid <= mid')%nat ->
  (lo <= mid')%nat -> (mid <= hi)%nat ->
  within lo hi (cs1 ++ cs2).
Proof.
  intros [Hall1 Hasc1] [Hall2 Hasc2] ? ? ?. split.
  - apply Forall_app; split; (eapply Forall_impl; [eassumption|]);
      simpl; intros; lia.
  - rewrite map_app. apply ascending_app; auto.
    intros x y Hx Hy.
    apply in_map_iff in Hx as (c1 & <- & Hc1). apply in_map_iff in Hy as (c2 & <- & Hc2).
    rewrite Forall_forall in Hall1, Hall2.
    apply list_elem_of_In in Hc1, Hc2.
    specialize (Hall1 _ Hc1). specialize (Hall2 _ Hc2). lia.
Qed.

Lemma within_probe cfg key : within 1 1 (probe_calls cfg key).
Proof.
  unfold probe_calls. destruct (_ && _); [|apply within_nil].
  split; [repeat constructor | simpl; auto].
Qed.

Lemma within_vector cfg query : within 2 2 (vector_calls cfg query).
Proof.
  unfold vector_calls. destruct (vector_store cfg); [|apply within_nil].
  split; [repeat constructor | simpl; auto].
Qed.

Lemma within_rpc w query : within 3 3 (rpc_calls w query).
Proof.
  unfold rpc_calls. destruct (embed_query w query);
    (split; [repeat constructor | simpl; auto]).
Qed.

Lemma within_direct w query : within 4 4 (direct_calls w query).
Proof.
  unfold direct_calls. destruct (direct_sql query); [|apply within_nil].
  destruct (pg_connect w); (split; [repeat constructor | simpl; auto]).
Qed.

Lemma within_keyword query : within 5 5 (keyword_calls query).
Proof.
  unfold keyword_calls. destruct (keyword_pattern query); [|apply within_nil].
  split; [repeat constructor | simpl; auto].
Qed.

Lemma within_handler w query partial :
  within 4 5 (handler_calls w query partial).
Proof.
  unfold handler_calls.
  eapply (within_app 4 4 5 5); [apply within_direct| |lia|lia|lia].
  destruct (is_nil _); [apply within_keyword|apply within_nil].
Qed.

Lemma within_cascade cfg w query : within 2 5 (cascade_calls cfg w query).
Proof.
  unfold cascade_calls.
  eapply (within_app 2 2 3 5); [apply within_vector| |lia|lia|lia].
  destruct (is_nil _); [|apply within_nil].
  eapply (within_app 3 3 4 5); [apply within_rpc| |lia|lia|lia].
  destruct (has_raised _); [apply within_handler|apply within_nil].
Qed.

Lemma calls_issued cfg w now query fr :
  calls (snd (search_knowledge_base cfg w now query fr))
  = calls fr ++ issued cfg w now query fr.
Proof.
  rewrite search_knowledge_base_run. unfold issued.
  destruct (configured cfg); cbn [snd]; [|symmetry; apply app_nil_r].
  cbv zeta. destruct (truthy _); cbn [snd].
  - simpl. rewrite app_nil_r. reflexivity.
  - unfold after_miss, writeback_calls, after_set.
    destruct (redis_available cfg && negb (is_nil _)); cbn [calls];
      [|rewrite app_nil_r; reflexivity].
    destruct (negb (redis_available cfg) || negb (redis_client cfg)); cbn [calls];
      [rewrite app_nil_r; reflexivity|].
    destruct (serialisable _); cbn [calls];
      [rewrite <- !app_assoc; reflexivity | rewrite app_nil_r; reflexivity].
Qed.

Lemma within_writeback cfg w query : within 6 6 (writeback_calls cfg w query).
Proof.
  unfold writeback_calls. cbv zeta.
  destruct (_ && _); [|apply within_nil].
  destruct (_ || _); [apply within_nil|].
  destruct (serialisable _); [|apply within_nil].
  split; [repeat constructor | simpl; auto].
Qed.

Lemma within_issued cfg w now query fr : within 1 6 (issued cfg w now query fr).
Proof.
  unfold issued. destruct (configured cfg); [|apply within_nil].
  eapply (within_app 1 1 2 6); [apply within_probe| |lia|lia|lia].
  destruct (truthy _); [apply within_nil|].
  eapply (within_app 2 5 6 6);
    [apply within_cascade|apply within_writeback|lia|lia|lia].
Qed.

(** *** Which strategies were attempted *)

Lemma attempted_app k cs1 cs2 :
  attempted k (cs1 ++ cs2) <-> attempted k cs1 \/ attempted k cs2.
Proof.
  unfold attempted. split.
  - intros (c & Hin & Hk). apply in_app_iff in Hin as [Hin|Hin]; eauto.
  - intros [(c & Hin & Hk)|(c & Hin & Hk)]; exists c; rewrite in_app_iff; auto.
Qed.

Lemma attempted_nil k : ~ attempted k [].
Proof. intros (c & [] & _). Qed.

Lemma attempted_within k lo hi cs :
  within lo hi cs -> attempted k cs -> (lo <= k <= hi)%nat.
Proof.
  intros [Hall _] (c & Hin & <-). rewrite Forall_forall in Hall.
  apply Hall, list_elem_of_In, Hin.
Qed.

Lemma attempted_vector cfg query :
  attempted 2 (vector_calls cfg query) <-> vector_store cfg = true.
Proof.
  unfold vector_calls. destruct (vector_store cfg); split; try congruence.
  - intros _. eexists; split; [left; reflexivity|reflexivity].
  - intros H; destruct (attempted_nil _ H).
Qed.

Lemma attempted_rpc w query : attempted 3 (rpc_calls w query).
Proof.
  unfold rpc_calls. destruct (embed_query w query);
    (eexists; split; [left; reflexivity|reflexivity]).
Qed.

Lemma attempted_direct w query :
  attempted 4 (direct_calls w query) <-> direct_sql query <> None.
Proof.
  unfold direct_calls. destruct (direct_sql query); split; try congruence.
  - intros _. destruct (pg_connect w);
      (eexists; split; [left; reflexivity|reflexivity]).
  - intros H; destruct (attempted_nil _ H).
Qed.

Lemma attempted_keyword query :
  attempted 5 (keyword_calls query) <-> keyword_pattern query <> None.
Proof.
  unfold keyword_calls. destruct (keyword_pattern query); split; try congruence.
  - intros _. eexists; split; [left; reflexivity|reflexivity].
  - intros H; destruct (attempted_nil _ H).
Qed.

Lemma is_nil_true {A} (l : list A) : is_nil l = true <-> l = [].
Proof. destruct l; simpl; split; congruence. Qed.

Lemma is_nil_false {A} (l : list A) : is_nil l = false <-> l <> [].
Proof. destruct l; simpl; split; congruence. Qed.

Lemma attempted_handler w query partial k :
  attempted k (handler_calls w query partial) <->
  (k = 4 /\ direct_sql query <> None) \/
  (k = 5 /\ partial ++ records_of (direct_outcome w query) = [] /\
   keyword_pattern query <> None).
Proof.
  unfold handler_calls. rewrite attempted_app. split.
  - intros [H|H].
    + pose proof (attempted_within _ _ _ _ (within_direct w query) H).
      assert (k = 4) by lia; subst. left. split; [reflexivity|].
      apply attempted_direct in H. exact H.
    + destruct (is_nil _) eqn:Hn; [|destruct (attempted_nil _ H)].
      pose proof (attempted_within _ _ _ _ (within_keyword query) H).
      assert (k = 5) by lia; subst. right. split; [reflexivity|].
      apply is_nil_true in Hn. split; [exact Hn|].
      apply attempted_keyword in H. exact H.
  - intros [[-> H]|(-> & Hn & H)].
    + left. apply attempted_direct. exact H.
    + right. apply is_nil_true in Hn. rewrite Hn. apply attempted_keyword. exact H.
Qed.

Lemma attempted_cascade cfg w query k :
  attempted k (cascade_calls cfg w query) <->
  (k = 2 /\ vector_store cfg = true) \/
  (vector_records cfg w query = [] /\
   (k = 3 \/
    (rpc_raised w query /\
     attempted k (handler_calls w query (rpc_records w query))))).
Proof.
  unfold cascade_calls, vector_records, rpc_raised, rpc_records.
  rewrite attempted_app. split.
  - intros [H|H].
    + pose proof (attempted_within _ _ _ _ (within_vector cfg query) H).
      assert (k = 2) by lia; subst. left. split; [reflexivity|].
      apply attempted_vector in H. exact H.
    + destruct (is_nil _) eqn:Hn; [|destruct (attempted_nil _ H)].
      apply is_nil_true in Hn. right. split; [exact Hn|].
      apply attempted_app in H as [H|H].
      * pose proof (attempted_within _ _ _ _ (within_rpc w query) H).
        left; lia.
      * destruct (has_raised _) eqn:Hr; [|destruct (attempted_nil _ H)].
        right. split; [reflexivity|exact H].
  - intros [[-> H]|(Hn & [->|(Hr & H)])].
    + left. apply attempted_vector. exact H.
    + right. apply is_nil_true in Hn. rewrite Hn.
      apply attempted_app. left. apply attempted_rpc.
    + right. apply is_nil_true in Hn. rewrite Hn.
      apply attempted_app. right. rewrite Hr. exact H.
Qed.

Lemma attempted_issued cfg w now query fr k :
  (2 <= k <= 5)%nat ->
  attempted k (issued cfg w now query fr) <->
  configured cfg = true /\ cache_miss cfg w now query fr /\
  attempted k (cascade_calls cfg w query).
Proof.
  intros Hk. unfold issued, cache_miss. split.
  - intros H. destruct (configured cfg); [|destruct (attempted_nil _ H)].
    split; [reflexivity|].
    apply attempted_app in H as [H|H].
    { pose proof (attempted_within _ _ _ _ (within_probe cfg _) H). lia. }
    destruct (truthy _); [destruct (attempted_nil _ H)|].
    split; [reflexivity|].
    apply attempted_app in H as [H|H]; [exact H|].
    pose proof (attempted_within _ _ _ _ (within_writeback cfg w query) H). lia.
  - intros (-> & -> & H). apply attempted_app. right.
    apply attempted_app. left. exact H.
Qed.

Lemma value_on_miss cfg w now query fr :
  configured cfg = true -> cache_miss cfg w now query fr ->
  fst (search_knowledge_base cfg w now query fr)
  = inr (JList (cascade_records cfg w query)).
Proof.
  unfold cache_miss. intros Hc Hm. rewrite search_knowledge_base_run, Hc.
  cbv zeta. rewrite Hm. reflexivity.
Qed.

Lemma attempts_justified_issued cfg w now query fr :
  attempts_justified cfg w now query fr (issued cfg w now query fr).
Proof.
  unfold attempts_justified.
  split; [|split; [|split]]; intros H;
    (apply attempted_issued in H as (Hc & Hm & H); [|lia]);
    (split; [exact Hc|]); try exact Hm; (split; [exact Hm|]);
    apply attempted_cascade in H as [[Hk _]|(Hv & [Hk|(Hr & H)])];
    try discriminate Hk; try exact Hv; (split; [exact Hv|]);
    apply attempted_handler in H as [[Hk _]|(Hk & Hn & _)];
    try discriminate Hk; try exact Hr; (split; [exact Hr|]);
    apply app_eq_nil in Hn as [Hn1 Hn2]; split; assumption.
Qed.

Lemma falls_through_issued cfg w now query fr :
  configured cfg = true -> cache_miss cfg w now query fr ->
  falls_through cfg w query (issued cfg w now query fr).
Proof.
  intros Hc Hm. unfold falls_through. repeat split.
  - intros Hvs. apply attempted_issued; [lia|]. repeat split; auto.
    apply attempted_cascade. left; auto.
  - intros Hv. apply attempted_issued; [lia|]. repeat split; auto.
    apply attempted_cascade. right; auto.
  - intros Hv Hr Hsql. apply attempted_issued; [lia|]. repeat split; auto.
    apply attempted_cascade. right. split; [exact Hv|]. right. split; [exact Hr|].
    apply attempted_handler. left; auto.
  - intros Hv Hr Hrpc Hd Hpat. apply attempted_issued; [lia|]. repeat split; auto.
    apply attempted_cascade. right. split; [exact Hv|]. right. split; [exact Hr|].
    apply attempted_handler. right. unfold rpc_records, direct_records in *.
    rewrite Hrpc, Hd. auto.
Qed.

Lemma first_producer_wins_cascade cfg w query :
  first_producer_wins cfg w query (inr (JList (cascade_records cfg w query))).
Proof.
  unfold first_producer_wins, cascade_records, handler_records, vector_records,
    rpc_raised, rpc_records, direct_records, keyword_records.
  repeat split.
  - intros Hv. apply is_nil_false in Hv. rewrite Hv, app_nil_r. reflexivity.
  - intros Hv Hr. rewrite Hv. simpl.
    destruct (has_raised _); [congruence|]. rewrite app_nil_r. reflexivity.
  - intros Hv Hr Hrpc Hd. rewrite Hv, Hr, Hrpc. simpl.
    apply is_nil_false in Hd. rewrite Hd, app_nil_r. reflexivity.
  - intros Hv Hr Hrpc Hd. rewrite Hv, Hr, Hrpc, Hd. reflexivity.
Qed.

(** C2 (amended). The calls of one invocation are issued in cascade order
    (cache probe, similarity search, RPC, direct connection, table API,
    write-back). Strategies 2-5 are attempted only on a cache miss of a
    configured knowledge base: the RPC exactly when the similarity search
    left no record; the direct-connection fallback only when, besides, the
    RPC strategy raised, and then whenever the query gives it a keyword; the
    table-API fallback only when, besides, neither the RPC loop nor the
    direct connection left a record, and then whenever the query has a
    token. The value returned is the similarity search's records when it
    left any; else the RPC's when the RPC did not raise; else, when the RPC
    raised before recording anything, the direct connection's records when
    it left any and the table API's otherwise. *)
Theorem cascade_order_and_fallbacks cfg w now query fr :
  exists cs,
    calls (snd (search_knowledge_base cfg w now query fr)) = calls fr ++ cs /\
    ascending (map stage cs) /\
    attempts_justified cfg w now query fr cs /\
    (configured cfg = true -> cache_miss cfg w now query fr ->
     falls_through cfg w query cs /\
     first_producer_wins cfg w query
       (fst (search_knowledge_base cfg w now query fr))).
Proof.
  exists (issued cfg w now query fr). split; [apply calls_issued|].
  split; [apply within_issued|].
  split; [apply attempts_justified_issued|].
  intros Hc Hm. split; [apply falls_through_issued; assumption|].
  rewrite value_on_miss by assumption. apply first_producer_wins_cascade.
Qed.

(** C1. [search_knowledge_base] returns a value on every input, and when
    every backend is down that value is the empty list or a list holding one
    record that carries the failure reason. *)
Theorem search_knowledge_base_never_raises cfg w now query fr :
  (exists v, fst (search_knowledge_base cfg w now query fr) = inr v) /\
  (total_failure w now query fr ->
   fst (search_knowledge_base cfg w now query fr) = inr (JList []) \/
   exists v, fst (search_knowledge_base cfg w now query fr) = inr v /\
             is_failure_record v).
Proof.
  rewrite search_knowledge_base_run. split.
  - destruct (configured cfg); cbv zeta; [destruct (truthy _)|]; eauto.
  - intros (Hcache & [ev Hvec] & Hrpc & Hpg & Htab).
    destruct (configured cfg); cbv zeta.
    2: { right. eexists; split; [reflexivity|]. eexists; reflexivity. }
    assert (Hm : truthy (probe cfg w now fr (cache_key_of query)) = false).
    { unfold probe. destruct (_ || _); [reflexivity|].
      destruct Hcache as [->|Hexp]; [reflexivity|].
      destruct (redis_reachable w); [|reflexivity].
      destruct (redis fr !! cache_key_of query) as [[[j|s] expiry]|] eqn:Hk;
        try reflexivity.
      specialize (Hexp _ _ eq_refl). apply Nat.ltb_ge in Hexp. rewrite Hexp.
      reflexivity. }
    rewrite Hm. left. cbn [fst]. do 2 f_equal.
    unfold cascade_records, handler_records.
    assert (Hv : records_of (vector_outcome cfg w query) = []).
    { unfold vector_outcome. rewrite Hvec. destruct (vector_store cfg); reflexivity. }
    assert (Hr : rpc_outcome w query = Raised []).
    { unfold rpc_outcome. destruct Hrpc as [[e ->]|Hrpc]; [reflexivity|].
      destruct (embed_query w query) as [e|v]; [reflexivity|].
      destruct (Hrpc v) as [e ->]. reflexivity. }
    assert (Hd : records_of (direct_outcome w query) = []).
    { unfold direct_outcome. destruct (direct_sql query) as [sql|]; [|reflexivity].
      destruct Hpg as [->|Hpg]; [reflexivity|].
      destruct (pg_connect w); [|reflexivity].
      destruct (Hpg sql) as [e ->]. reflexivity. }
    assert (Hkw : records_of (keyword_outcome w query) = []).
    { unfold keyword_outcome. destruct (keyword_pattern query) as [p|]; [|reflexivity].
      destruct (Htab p) as [e ->]. reflexivity. }
    rewrite Hv, Hr, Hd, Hkw. reflexivity.
Qed.

(** C3 (amended). When the cache is usable and holds a live, non-empty value
    for the query's key, the call issues no call of strategies 2-5 and no
    write-back and leaves the cache as it was; it returns the cached value
    if the knowledge base is configured, and the "not available" record
    otherwise. *)
Theorem cache_hit_bypasses_strategies cfg w now query fr j expiry :
  redis_available cfg = true -> redis_client cfg = true ->
  redis_reachable w = true ->
  redis fr !! cache_key_of query = Some (Dumped j, expiry) ->
  (now < expiry)%nat -> truthy j = true ->
  fst (search_knowledge_base cfg w now query fr)
  = inr (if configured cfg then j else unavailable_result) /\
  redis (snd (search_knowledge_base cfg w now query fr)) = redis fr /\
  exists cs,
    calls (snd (search_knowledge_base cfg w now query fr)) = calls fr ++ cs /\
    forall k, (2 <= k <= 6)%nat -> ~ attempted k cs.
Proof.
  intros Ha Hcl Hre Hk Hlt Hj.
  assert (Hp : probe cfg w now fr (cache_key_of query) = j).
  { unfold probe. rewrite Ha, Hcl, Hre, Hk. simpl.
    apply Nat.ltb_lt in Hlt. rewrite Hlt. reflexivity. }
  rewrite search_knowledge_base_run. cbv zeta. rewrite Hp, Hj.
  destruct (configured cfg); cbn [fst snd].
  - split; [reflexivity|]. split; [reflexivity|].
    exists (probe_calls cfg (cache_key_of query)). split; [reflexivity|].
    intros k Hk2 H.
    pose proof (attempted_within _ _ _ _ (within_probe cfg _) H). lia.
  - split; [reflexivity|]. split; [reflexivity|].
    exists []. split; [symmetry; apply app_nil_r|].
    intros k _ H. destruct (attempted_nil _ H).
Qed.

(** C8 (amended). When the knowledge base is configured, the cache is
    usable and the result can be encoded as JSON, a non-empty result
    obtained from strategies 2-5 at time [t1] is stored under the query's
    key for 3600 seconds before the call returns; a second call for the same
    query made before that time has passed, with the key untouched in
    between, returns the same result from the cache and issues nothing but
    the cache read. *)
Theorem write_back_then_replay cfg w1 w2 t1 t2 query fr rs fr1 :
  configured cfg = true ->
  redis_available cfg = true -> redis_client cfg = true ->
  redis_reachable w1 = true -> redis_reachable w2 = true ->
  search_knowledge_base cfg w1 t1 query fr = (inr (JList rs), fr1) ->
  cache_miss cfg w1 t1 query fr -> rs <> [] ->
  serialisable (JList rs) = true ->
  (t2 < t1 + 3600)%nat ->
  redis fr1 !! cache_key_of query = Some (Dumped (JList rs), t1 + 3600) /\
  forall fr2,
    redis fr2 !! cache_key_of query = redis fr1 !! cache_key_of query ->
    search_knowledge_base cfg w2 t2 query fr2
    = (inr (JList rs),
       {| redis := redis fr2;
          calls := calls fr2 ++ [CacheGet (cache_key_of query)];
          results := results fr2 |}).
Proof.
  intros Hc Ha Hcl Hre1 Hre2 Hrun Hm Hne Hser Hlt.
  rewrite search_knowledge_base_run, Hc in Hrun. cbv zeta in Hrun.
  unfold cache_miss in Hm. rewrite Hm in Hrun.
  injection Hrun as Hrs Hfr1.
  assert (Hstored :
    redis fr1 !! cache_key_of query = Some (Dumped (JList rs), t1 + 3600)).
  { rewrite <- Hfr1. unfold after_miss. rewrite Ha, Hrs.
    apply is_nil_false in Hne. rewrite Hne. cbn [andb negb].
    unfold after_set. rewrite Ha, Hcl, Hser, Hre1. cbn [negb orb redis].
    apply lookup_insert_eq. }
  split; [exact Hstored|].
  intros fr2 Hsame. rewrite search_knowledge_base_run, Hc. cbv zeta.
  assert (Hp : probe cfg w2 t2 fr2 (cache_key_of query) = JList rs).
  { unfold probe. rewrite Ha, Hcl, Hre2, Hsame, Hstored. simpl.
    apply Nat.ltb_lt in Hlt. rewrite Hlt. reflexivity. }
  rewrite Hp. destruct rs as [|r rs]; [congruence|]. simpl truthy. cbv iota.
  f_equal. unfold probe_calls. rewrite Ha, Hcl. apply frame_eq; simpl; auto.
  apply app_nil_r.
Qed.

End CascadeFacts.

Module CascadeSamples.
Import Tools Cascade Samples CascadeFacts.

Lemma world_down_total_failure :
  total_failure world_down 0 "solar jobs" empty_frame.
Proof.
  unfold total_failure; simpl. split; [left; reflexivity|].
  split; [eexists; reflexivity|]. split; [left; eexists; reflexivity|].
  split; [left; reflexivity|]. intros; eexists; reflexivity.
Defined.

Lemma search_knowledge_base_never_raises_witness :
  total_failure world_down 0 "solar jobs" empty_frame /\
  (fst (search_knowledge_base cfg_full world_down 0 "solar jobs" empty_frame)
   = inr (JList []) \/
   exists v,
     fst (search_knowledge_base cfg_full world_down 0 "solar jobs" empty_frame)
     = inr v /\ is_failure_record v).
Proof.
  split; [exact world_down_total_failure|].
  exact (proj2 (search_knowledge_base_never_raises
                  cfg_full world_down 0 "solar jobs" empty_frame)
               world_down_total_failure).
Defined.

(** C2, as stated, fails: with the similarity search down and the RPC
    answering with zero rows, both keyword back ends hold a matching row, yet
    neither fallback is attempted and the call returns the empty list. *)
Lemma fallbacks_skipped_after_empty_rpc :
  direct_records world_rpc_empty "solar jobs" <> [] /\
  fst (search_knowledge_base cfg_full world_rpc_empty 0 "solar jobs" empty_frame)
  = inr (JList []) /\
  ~ attempted_whenever_earlier_empty
      cfg_full world_rpc_empty 0 "solar jobs" empty_frame.
Proof.
  split; [vm_compute; discriminate|]. split; [vm_compute; reflexivity|].
  intros (_ & H4 & _).
  destruct H4 as (c & Hin & Hst); try reflexivity; [vm_compute; discriminate|].
  vm_compute in Hin.
  repeat (destruct Hin as [<-|Hin]; [discriminate Hst|]). exact Hin.
Qed.

Lemma cascade_order_and_fallbacks_witness :
  configured cfg_full = true /\
  cache_miss cfg_full world_direct_only 0 "solar jobs" empty_frame /\
  exists cs,
    calls (snd (search_knowledge_base cfg_full world_direct_only 0 "solar jobs"
                                      empty_frame))
    = calls empty_frame ++ cs /\
    ascending (map stage cs) /\
    attempts_justified cfg_full world_direct_only 0 "solar jobs" empty_frame cs /\
    falls_through cfg_full world_direct_only "solar jobs" cs /\
    first_producer_wins cfg_full world_direct_only "solar jobs"
      (fst (search_knowledge_base cfg_full world_direct_only 0 "solar jobs"
                                  empty_frame)).
Proof.
  split; [reflexivity|]. split; [reflexivity|].
  destruct (cascade_order_and_fallbacks
              cfg_full world_direct_only 0 "solar jobs" empty_frame)
    as (cs & Hcalls & Hasc & Hjust & Hrest).
  destruct (Hrest eq_refl eq_refl) as [Hfall Hwin].
  exists cs. auto 10.
Defined.

(** C3, as stated, fails: Redis holds a live value for the query, but with
    neither Supabase nor a database user configured the call returns the
    "not available" record instead of it. *)
Lemma cached_value_behind_availability_guard :
  redis cached_frame !! cache_key_of "solar jobs"
  = Some (Dumped cached_value, 100) /\
  ~ returns_cached_value
      cfg_unconfigured world_rpc_empty 0 "solar jobs" cached_frame.
Proof.
  split; [reflexivity|].
  intros H. specialize (H cached_value 100 eq_refl).
  assert (H0 : (0 < 100)%nat) by lia.
  specialize (H H0 eq_refl). vm_compute in H. discriminate H.
Qed.

Lemma cache_hit_bypasses_strategies_witness :
  fst (search_knowledge_base cfg_full world_rpc_empty 0 "solar jobs" cached_frame)
  = inr cached_value /\
  redis (snd (search_knowledge_base cfg_full world_rpc_empty 0 "solar jobs"
                                    cached_frame))
  = redis cached_frame /\
  exists cs,
    calls (snd (search_knowledge_base cfg_full world_rpc_empty 0 "solar jobs"
                                      cached_frame))
    = calls cached_frame ++ cs /\
    forall k, (2 <= k <= 6)%nat -> ~ attempted k cs.
Proof.
  apply (cache_hit_bypasses_strategies
           cfg_full world_rpc_empty 0 "solar jobs" cached_frame cached_value 100);
    try reflexivity.
  lia.
Defined.

(** C8, as stated, fails: when Redis did not initialise, a non-empty result
    of the similarity search is not stored, and the second call asks the
    back end again and returns what it answers then. *)
Lemma no_write_back_without_redis :
  ~ written_back_and_replayed
      cfg_no_redis (world_vector doc_solar) (world_vector doc_wind) 0 1
      "solar jobs" empty_frame.
Proof.
  intros H.
  destruct (H [vector_record doc_solar (9 # 10)]
              (snd (search_knowledge_base cfg_no_redis (world_vector doc_solar)
                      0 "solar jobs" empty_frame)))
    as [[expiry Hstored] _].
  - vm_compute. reflexivity.
  - reflexivity.
  - discriminate.
  - vm_compute in Hstored. discriminate Hstored.
Qed.

Lemma write_back_then_replay_witness :
  let first :=
    search_knowledge_base cfg_full (world_vector doc_solar) 0 "solar jobs"
                          empty_frame in
  fst first = inr (JList [vector_record doc_solar (9 # 10)]) /\
  redis (snd first) !! cache_key_of "solar jobs"
  = Some (Dumped (JList [vector_record doc_solar (9 # 10)]), 0 + 3600) /\
  search_knowledge_base cfg_full (world_vector doc_wind) 60 "solar jobs"
                        (snd first)
  = (inr (JList [vector_record doc_solar (9 # 10)]),
     {| redis := redis (snd first);
        calls := calls (snd first) ++ [CacheGet (cache_key_of "solar jobs")];
        results := results (snd first) |}).
Proof.
  intros first. split; [vm_compute; reflexivity|].
  destruct (write_back_then_replay
              cfg_full (world_vector doc_solar) (world_vector doc_wind) 0 60
              "solar jobs" empty_frame
              [vector_record doc_solar (9 # 10)] (snd first))
    as [Hstored Hreplay];
    try reflexivity; try (vm_compute; reflexivity); try discriminate; try lia.
  split; [exact Hstored|]. apply Hreplay. reflexivity.
Defined.

End CascadeSamples.

(** ** Routing nodes *)

Module NodeFacts.
Import Node Graph Routing EffFacts.

Lemma append_assoc (s1 s2 s3 : string) :
  (s1 +:+ s2) +:+ s3 = s1 +:+ (s2 +:+ s3).
Proof.
  induction s1 as [|a s1 IH]; [reflexivity|].
  change (String a ((s1 +:+ s2) +:+ s3) = String a (s1 +:+ (s2 +:+ s3))).
  rewrite IH. reflexivity.
Qed.

Lemma append_empty_r (s : string) : s +:+ "" = s.
Proof.
  induction s as [|a s IH]; [reflexivity|].
  change (String a (s +:+ "") = String a s). rewrite IH. reflexivity.
Qed.

(** Replaces the four keyword tests on [response] by booleans. *)
Ltac abstract_tests response :=
  generalize (Text.lower response); intros r;
  repeat match goal with
         | |- context [Text.any_in ?kws r] =>
             let b := fresh "b" in
             set (b := Text.any_in kws r); clearbody b
         end.

Lemma analyze_response_matched response :
  fst (analyze_response response) = matched response.
Proof.
  unfold analyze_response, matched, taxonomy. cbn [filter list_filter map fst snd].
  generalize (Text.lower response). intros r.
  repeat match goal with
         | |- context [Text.any_in ?kws r] =>
             let b := fresh "b" in
             set (b := Text.any_in kws r); clearbody b
         end.
  destruct b, b0, b1, b2; reflexivity.
Qed.

(** C10. With no message in the state the supervisor ends the turn with the
    error text and nothing else in its update, and calls none of its
    collaborators. *)
Theorem supervisor_node_no_messages env st tr :
  messages st = None \/ messages st = Some [] ->
  supervisor_node env st tr
  = (inr {| goto := "END";
            update := {| messages := None; specialists_to_call := None;
                         routing_reasons := None; context := None;
                         specialist_responses := None; feedback := None;
                         error := Some "No messages found";
                         final_response := None |} |},
     tr).
Proof.
  intros [H|H]; unfold supervisor_node; rewrite H; reflexivity.
Qed.

(** C9. The approval path of [human_feedback_node] returns a command exactly
    when [specialists_to_call] is present and non-empty, and then targets
    its first element; with the list empty or absent it raises
    [IndexError]. *)
Theorem human_feedback_node_needs_specialists st tr :
  (forall first rest,
     specialists_to_call st = Some (first :: rest) ->
     exists cmd, human_feedback_node st tr = (inr cmd, tr) /\ goto cmd = first) /\
  (specialists_to_call st = None \/ specialists_to_call st = Some [] ->
   human_feedback_node st tr = (inl index_error, tr)).
Proof.
  split.
  - intros first rest H. unfold human_feedback_node. rewrite H. simpl.
    eexists; split; reflexivity.
  - intros [H|H]; unfold human_feedback_node; rewrite H; reflexivity.
Qed.

(** C6. With an empty (or absent) specialist-result map the integration
    node hands control back to the supervisor with the error set and no
    final response; the turn keeps running. *)
Theorem integrate_empty_returns_to_supervisor env st tr :
  specialist_responses st = None \/ specialist_responses st = Some [] ->
  integrate_responses_node st tr
  = (inr {| goto := "supervisor";
            update := {| messages := None; specialists_to_call := None;
                         routing_reasons := None; context := None;
                         specialist_responses := None; feedback := None;
                         error := Some "No specialist responses to integrate";
                         final_response := None |} |},
     tr) /\
  let t' := step climate_graph env
              {| status := Running "integrate"; state := st; trace := tr |} in
  status t' = Running "supervisor" /\
  error (state t') = Some "No specialist responses to integrate" /\
  final_response (state t') = final_response st.
Proof.
  intros H.
  assert (Hrun : integrate_responses_node st tr
    = (inr {| goto := "supervisor";
              update := {| messages := None; specialists_to_call := None;
                           routing_reasons := None; context := None;
                           specialist_responses := None; feedback := None;
                           error := Some "No specialist responses to integrate";
                           final_response := None |} |}, tr)).
  { destruct H as [H|H]; unfold integrate_responses_node; rewrite H; reflexivity. }
  split; [exact Hrun|].
  unfold step. cbn [status state trace]. simpl find_node. cbv beta iota.
  rewrite Hrun. simpl. auto.
Qed.

(** C4. The specialists the supervisor's classification yields are a
    function of the response text alone: exactly the categories of the
    taxonomy that have a keyword in the lower-cased text, listed in the
    priority order liv, jasmine, marcus, miguel wherever the keywords stand
    in the text. The command built from the response dispatches them all,
    in that order, and dispatches none when no category matches. *)
Theorem routing_follows_taxonomy response :
  let specialists := fst (analyze_response response) in
  specialists = matched response /\
  sublist specialists specialist_nodes /\
  (forall s keywords,
     In (s, keywords) taxonomy ->
     In s specialists <-> Text.any_in keywords (Text.lower response) = true) /\
  forall kb_results context,
    let cmd := routing_command kb_results context response in
    match specialists with
    | [] => goto cmd = "END" /\ specialists_to_call (update cmd) = None
    | _ :: _ => goto cmd = "human_feedback" /\
                specialists_to_call (update cmd) = Some specialists
    end.
Proof.
  cbv zeta. split; [apply analyze_response_matched|]. split; [|split].
  - unfold analyze_response, specialist_nodes. abstract_tests response.
    destruct b, b0, b1, b2; cbn [fst app];
      repeat first [apply sublist_nil_l | apply sublist_skip | apply sublist_cons].
  - intros s keywords Hin. unfold taxonomy in Hin. cbn [In] in Hin.
    repeat match type of Hin with
           | _ \/ _ => destruct Hin as [Hin|Hin]
           | False => destruct Hin
           | (_, _) = (_, _) => injection Hin as <- <-
           end.
    all: unfold analyze_response; abstract_tests response.
    all: destruct b, b0, b1, b2; cbn [fst app In];
      split; intros H; try reflexivity; try discriminate H; auto 10;
      repeat match type of H with
             | _ \/ _ => destruct H as [H|H]
             | False => destruct H
             | _ = _ => discriminate H
             end.
  - intros kb_results context. unfold routing_command, analyze_response.
    abstract_tests response.
    destruct b, b0, b1, b2; cbn [fst app Tools.is_nil negb andb];
      try (split; reflexivity);
      destruct (truthy kb_results); split; reflexivity.
Qed.

End NodeFacts.

(** ** Turns of the graph *)

Module GraphFacts.
Import Node Graph Routing EffFacts NodeFacts.




End GraphFacts.

Module RoutingSamples.
Import Node Graph Routing Samples NodeFacts GraphFacts.

(** The order of the keywords in the text does not matter. *)
Example veteran_before_visa :
  matched "As a veteran you may need an international visa review"
  = ["marcus"; "miguel"].
Proof. vm_compute. reflexivity. Qed.

Example visa_before_veteran :
  matched "An INTERNATIONAL visa review often suits a Veteran"
  = ["marcus"; "miguel"].
Proof. vm_compute. reflexivity. Qed.

Example resume_only : matched "I can help with your resume" = ["liv"].
Proof. vm_compute. reflexivity. Qed.

Lemma supervisor_node_no_messages_witness :
  supervisor_node env_career_equity (state_of None) []
  = (inr {| goto := "END";
            update := {| messages := None; specialists_to_call := None;
                         routing_reasons := None; context := None;
                         specialist_responses := None; feedback := None;
                         error := Some "No messages found";
                         final_response := None |} |},
     []).
Proof.
  apply (supervisor_node_no_messages env_career_equity (state_of None) []).
  left. reflexivity.
Defined.

Lemma human_feedback_node_needs_specialists_witness :
  (exists cmd, human_feedback_node state_two_matched [] = (inr cmd, [])
               /\ goto cmd = "liv") /\
  human_feedback_node state_hello [] = (inl index_error, []).
Proof.
  split.
  - apply (proj1 (human_feedback_node_needs_specialists state_two_matched [])
                 "liv" ["jasmine"]).
    reflexivity.
  - apply (proj2 (human_feedback_node_needs_specialists state_hello [])).
    left. reflexivity.
Defined.

Lemma integrate_empty_returns_to_supervisor_witness :
  let t' := step climate_graph env_plain
              {| status := Running "integrate"; state := state_hello;
                 trace := [] |} in
  status t' = Running "supervisor" /\
  error (state t') = Some "No specialist responses to integrate" /\
  final_response (state t') = None.
Proof.
  apply (proj2 (integrate_empty_returns_to_supervisor env_plain state_hello []
                  (or_introl eq_refl))).
Defined.


End RoutingSamples.

(** ** The cache helpers and the direct query *)

Module CacheFacts.
Import Tools Cascade Extra EffFacts CascadeFacts.

Lemma set_in_cache_value cfg w now key value expire fr :
  fst (set_in_cache cfg w now key value expire fr)
  = inr (redis_available cfg && redis_client cfg && serialisable value
         && redis_reachable w && expire_accepted expire).
Proof.
  unfold set_in_cache. rewrite try_catch_run.
  destruct (redis_available cfg), (redis_client cfg); simpl; try reflexivity.
  rewrite bind_run. unfold Eff.lift, json_dumps.
  destruct (serialisable value); simpl; [|reflexivity].
  unfold redis_setex. rewrite !bind_run. unfold log, Eff.modify.
  destruct (redis_reachable w); [|reflexivity].
  destruct (expire_accepted expire); reflexivity.
Qed.

Lemma set_in_cache_frame cfg w now key value expire fr :
  snd (set_in_cache cfg w now key value expire fr)
  = after_set cfg w now key value expire fr.
Proof.
  destruct (set_in_cache_run cfg w now key value expire fr) as [b ->].
  reflexivity.
Qed.

Lemma after_set_stored cfg w now key value expire fr :
  cache_usable cfg w -> serialisable value = true ->
  expire_accepted expire = true ->
  redis (after_set cfg w now key value expire fr)
  = <[key := (Dumped value, now + expire)]> (redis fr).
Proof.
  intros (Ha & Hc & Hr) Hs He. unfold after_set. rewrite Ha, Hc, Hs, Hr, He.
  reflexivity.
Qed.

Lemma probe_live cfg w now fr key value expiry :
  cache_usable cfg w ->
  redis fr !! key = Some (Dumped value, expiry) ->
  probe cfg w now fr key = if (now <? expiry)%nat then value else JNull.
Proof.
  intros (Ha & Hc & Hr) Hk. unfold probe. rewrite Ha, Hc, Hr, Hk. reflexivity.
Qed.

Lemma read_after_write cfg w1 w2 t1 t2 key value expire fr :
  cache_usable cfg w1 -> cache_usable cfg w2 ->
  serialisable value = true -> expire_accepted expire = true ->
  (t2 < t1 + expire)%nat ->
  fst (get_from_cache cfg w2 t2 key
         (snd (set_in_cache cfg w1 t1 key value expire fr)))
  = inr value.
Proof.
  intros H1 H2 Hs He Hlt.
  rewrite set_in_cache_frame, get_from_cache_run. cbn [fst].
  erewrite probe_live; [|exact H2|rewrite after_set_stored by assumption;
                                  apply lookup_insert_eq].
  apply Nat.ltb_lt in Hlt. rewrite Hlt. reflexivity.
Qed.

(** X1. With an expiry Redis accepts, [set_in_cache] stores the value and
    answers [True], and [get_from_cache] returns that value for the key
    until the expiry time has passed. *)
Theorem set_then_get_returns_value cfg w1 w2 t1 t2 key value expire fr :
  cache_usable cfg w1 -> cache_usable cfg w2 ->
  serialisable value = true -> expire_accepted expire = true ->
  (t2 < t1 + expire)%nat ->
  fst (set_in_cache cfg w1 t1 key value expire fr) = inr true /\
  fst (get_from_cache cfg w2 t2 key
         (snd (set_in_cache cfg w1 t1 key value expire fr)))
  = inr value.
Proof.
  intros H1 H2 Hs He Hlt. split; [|apply read_after_write; assumption].
  rewrite set_in_cache_value. destruct H1 as (-> & -> & ->). rewrite Hs, He.
  reflexivity.
Qed.

(** X2. Once the expiry time of a value that [set_in_cache] stored (with an
    expiry Redis accepts) has passed, [get_from_cache] answers [None] for
    its key. *)
Theorem stored_value_expires cfg w1 w2 t1 t2 key value expire fr :
  cache_usable cfg w1 -> serialisable value = true ->
  expire_accepted expire = true ->
  (t1 + expire <= t2)%nat ->
  fst (get_from_cache cfg w2 t2 key
         (snd (set_in_cache cfg w1 t1 key value expire fr)))
  = inr JNull.
Proof.
  intros H1 Hs He Hle. rewrite set_in_cache_frame, get_from_cache_run. cbn [fst].
  f_equal. unfold probe.
  destruct (negb (redis_available cfg) || negb (redis_client cfg)); [reflexivity|].
  destruct (redis_reachable w2); [|reflexivity].
  rewrite after_set_stored by assumption. rewrite lookup_insert_eq.
  apply Nat.ltb_ge in Hle. rewrite Hle. reflexivity.
Qed.

(** X3. [get_from_cache] never raises and never changes Redis; an answer other
    than [None] is the decoded value of a live entry read from a usable
    cache. *)
Theorem get_from_cache_reads_only cfg w now key fr :
  exists v fr',
    get_from_cache cfg w now key fr = (inr v, fr') /\
    redis fr' = redis fr /\
    (v <> JNull ->
     cache_usable cfg w /\
     exists expiry, redis fr !! key = Some (Dumped v, expiry) /\
                    (now < expiry)%nat).
Proof.
  rewrite get_from_cache_run. do 2 eexists. split; [reflexivity|].
  split; [reflexivity|]. unfold probe, cache_usable.
  destruct (redis_available cfg), (redis_client cfg); simpl; try congruence.
  destruct (redis_reachable w); [|congruence].
  destruct (redis fr !! key) as [[[j|s] expiry]|]; try congruence.
  destruct (now <? expiry)%nat eqn:Hlt; [|congruence].
  intros _. apply Nat.ltb_lt in Hlt. eauto 10.
Qed.

(** X4. [set_in_cache] never raises; it answers [True] exactly when it stored
    the value under the key with the expiry asked for, it leaves Redis as it
    was when it answers [False], and it never touches another key. *)
Theorem set_in_cache_reports_the_write cfg w now key value expire fr :
  exists stored fr',
    set_in_cache cfg w now key value expire fr = (inr stored, fr') /\
    (stored = true ->
     redis fr' !! key = Some (Dumped value, now + expire)) /\
    (stored = false -> redis fr' = redis fr) /\
    (forall key', key' <> key -> redis fr' !! key' = redis fr !! key').
Proof.
  pose proof (set_in_cache_value cfg w now key value expire fr) as Hv.
  pose proof (set_in_cache_frame cfg w now key value expire fr) as Hf.
  destruct (set_in_cache cfg w now key value expire fr) as [r fr'].
  cbn [fst snd] in Hv, Hf. subst r fr'. do 2 eexists. split; [reflexivity|].
  unfold after_set.
  destruct (redis_available cfg), (redis_client cfg), (serialisable value),
    (redis_reachable w), (expire_accepted expire);
    cbn [negb orb andb redis];
    repeat split; try congruence; intros;
    try (rewrite lookup_insert_eq; reflexivity);
    rewrite lookup_insert_ne by congruence; reflexivity.
Qed.

(** X5. Of two writes to the same key, the later one, when Redis accepts its
    expiry, is what a read returns: whatever the first write stored, and
    whether or not it succeeded. *)
Theorem last_write_wins cfg w1 w2 w3 t1 t2 t3 key v1 v2 e1 e2 fr :
  cache_usable cfg w2 -> cache_usable cfg w3 ->
  serialisable v2 = true -> expire_accepted e2 = true ->
  (t3 < t2 + e2)%nat ->
  fst (get_from_cache cfg w3 t3 key
         (snd (set_in_cache cfg w2 t2 key v2 e2
                 (snd (set_in_cache cfg w1 t1 key v1 e1 fr)))))
  = inr v2.
Proof.
  intros H2 H3 Hs He Hlt.
  apply read_after_write; assumption.
Qed.

End CacheFacts.

(** ** More on the cascade *)

Module CascadeMore.
Import Tools Cascade Extra EffFacts CascadeFacts.

(** X6. [direct_db_query] never raises and never touches Redis: without a
    connection it answers [[]] and executes nothing, a failing query gives
    [[]], and otherwise it hands back the rows. *)
Theorem direct_db_query_is_safe w sql fr :
  exists rows fr',
    direct_db_query w sql fr = (inr rows, fr') /\
    redis fr' = redis fr /\
    (pg_connect w = false -> rows = [] /\ calls fr' = calls fr ++ [PgConnect]) /\
    (forall e, pg_execute w sql = inl e -> rows = []) /\
    (forall rs, pg_connect w = true -> pg_execute w sql = inr rs -> rows = rs).
Proof.
  rewrite direct_db_query_run. do 2 eexists. split; [reflexivity|].
  split; [reflexivity|]. repeat split.
  - destruct (pg_connect w); congruence.
  - destruct (pg_connect w); [congruence|reflexivity].
  - intros e He. rewrite He. destruct (pg_connect w); reflexivity.
  - intros rs Hc He. rewrite Hc, He. reflexivity.
Qed.

Lemma cache_key_of_inj q1 q2 : cache_key_of q1 = cache_key_of q2 -> q1 = q2.
Proof. unfold cache_key_of. apply String.app_inj. Qed.

(** What a call leaves in Redis. *)
Lemma redis_after_call cfg w now query fr :
  redis (snd (search_knowledge_base cfg w now query fr)) = redis fr \/
  (configured cfg = true /\ cache_miss cfg w now query fr /\
   cascade_records cfg w query <> [] /\
   redis (snd (search_knowledge_base cfg w now query fr))
   = <[cache_key_of query :=
         (Dumped (JList (cascade_records cfg w query)), now + 3600)]> (redis fr)).
Proof.
  rewrite search_knowledge_base_run. unfold cache_miss.
  destruct (configured cfg); [|left; reflexivity]. cbv zeta.
  destruct (truthy _); [left; reflexivity|]. cbn [snd].
  unfold after_miss.
  destruct (redis_available cfg && negb (is_nil (cascade_records cfg w query)))
    eqn:Hwb; [|left; reflexivity].
  apply andb_true_iff in Hwb as [Ha Hn]. apply negb_true_iff, is_nil_false in Hn.
  unfold after_set.
  destruct (negb (redis_available cfg) || negb (redis_client cfg));
    [left; reflexivity|].
  destruct (serialisable _); [|left; reflexivity]. cbn [redis].
  destruct (redis_reachable w); [|left; reflexivity].
  right. repeat split; auto.
Qed.

(** X7. A call changes Redis, if at all, by storing the very list it returns,
    non-empty, under the query's own key with a 3600-second expiry; empty
    results, the "not available" record and cached values are never
    written. *)
Theorem only_returned_results_are_cached cfg w now query fr :
  redis (snd (search_knowledge_base cfg w now query fr)) = redis fr \/
  exists rs,
    rs <> [] /\
    fst (search_knowledge_base cfg w now query fr) = inr (JList rs) /\
    configured cfg = true /\ cache_miss cfg w now query fr /\
    redis (snd (search_knowledge_base cfg w now query fr))
    = <[cache_key_of query := (Dumped (JList rs), now + 3600)]> (redis fr).
Proof.
  destruct (redis_after_call cfg w now query fr) as [H|(Hc & Hm & Hne & H)];
    [left; exact H|].
  right. exists (cascade_records cfg w query).
  rewrite value_on_miss by assumption. auto.
Qed.

(** X8. A call for one query never touches the cache entry of another: distinct
    queries have distinct keys, and every key other than the query's own
    reads as before. *)
Theorem other_cache_entries_untouched cfg w now query fr :
  (forall query', query' <> query -> cache_key_of query' <> cache_key_of query) /\
  (forall key,
     key <> cache_key_of query ->
     redis (snd (search_knowledge_base cfg w now query fr)) !! key
     = redis fr !! key).
Proof.
  split.
  - intros query' Hne Heq. apply Hne, cache_key_of_inj, Heq.
  - intros key Hne.
    destruct (redis_after_call cfg w now query fr) as [->|(_ & _ & _ & ->)];
      [reflexivity|].
    apply lookup_insert_ne. congruence.
Qed.

(** *** The records of the strategies *)

Lemma converted_forall {A} (conv : A -> Exn + Json) (P : Json -> Prop) l :
  (forall x r, conv x = inr r -> P r) -> Forall P (fst (converted conv l)).
Proof.
  intros Hconv. induction l as [|x l IH]; simpl; [constructor|].
  destruct (conv x) as [e|r] eqn:Hx; simpl; [constructor|].
  destruct (converted conv l) as [rs o]. simpl in *.
  constructor; eauto.
Qed.

Lemma loop_outcome_forall {A} (conv : A -> Exn + Json) (P : Json -> Prop) l :
  (forall x r, conv x = inr r -> P r) ->
  Forall P (records_of (loop_outcome conv l)).
Proof.
  intros Hconv. pose proof (converted_forall conv P l Hconv) as H.
  unfold loop_outcome. destruct (converted conv l) as [rs [e|]]; exact H.
Qed.

Section Records.
Variable P : Json -> Prop.
Variable cfg : Config.
Variable w : World.
Variable query : string.
Hypothesis Hvector : forall doc score, P (vector_record doc score).
Hypothesis Hrpc : forall item r, rpc_record item = inr r -> P r.
Hypothesis Hdirect : forall row, P (row_record row direct_similarity).
Hypothesis Hkeyword : forall item r, keyword_record item = inr r -> P r.

Lemma vector_records_forall : Forall P (vector_records cfg w query).
Proof.
  unfold vector_records, vector_outcome.
  destruct (vector_store cfg); [|constructor].
  destruct (similarity_search_with_score w query 5) as [e|docs]; [constructor|].
  simpl. apply Forall_forall. intros r Hr.
  apply list_elem_of_fmap in Hr as ([doc score] & -> & _). apply Hvector.
Qed.

Lemma rpc_records_forall : Forall P (rpc_records w query).
Proof.
  unfold rpc_records, rpc_outcome.
  destruct (embed_query w query) as [e|v]; [constructor|].
  destruct (rpc_match_documents w v 5 "") as [e|data]; [constructor|].
  apply loop_outcome_forall, Hrpc.
Qed.

Lemma direct_records_forall : Forall P (direct_records w query).
Proof.
  unfold direct_records, direct_outcome.
  destruct (direct_sql query); [|constructor].
  destruct (pg_connect w); [|constructor].
  destruct (pg_execute w _) as [e|rows]; [constructor|].
  simpl. apply Forall_forall. intros r Hr.
  apply list_elem_of_fmap in Hr as (row & -> & _). apply Hdirect.
Qed.

Lemma keyword_records_forall : Forall P (keyword_records w query).
Proof.
  unfold keyword_records, keyword_outcome.
  destruct (keyword_pattern query); [|constructor].
  destruct (table_ilike w _ _ _ 5) as [e|data]; [constructor|].
  apply loop_outcome_forall, Hkeyword.
Qed.

Lemma cascade_records_forall : Forall P (cascade_records cfg w query).
Proof.
  unfold cascade_records, handler_records.
  apply Forall_app. split; [apply vector_records_forall|].
  destruct (is_nil _); [|constructor].
  apply Forall_app. split; [apply rpc_records_forall|].
  destruct (has_raised _); [|constructor].
  apply Forall_app. split; [apply direct_records_forall|].
  destruct (is_nil _); [apply keyword_records_forall|constructor].
Qed.

End Records.

Lemma row_record_is_kb_record row similarity :
  is_kb_record (row_record row similarity).
Proof. unfold is_kb_record, row_record. eauto 10. Qed.

(** X9. Whatever strategy answers, every record returned on a cache miss is a
    dictionary with exactly the keys id, content, title, summary, metadata
    and similarity. *)
Theorem returned_records_have_six_keys cfg w now query fr :
  configured cfg = true -> cache_miss cfg w now query fr ->
  exists rs,
    fst (search_knowledge_base cfg w now query fr) = inr (JList rs) /\
    Forall is_kb_record rs.
Proof.
  intros Hc Hm. exists (cascade_records cfg w query).
  split; [apply value_on_miss; assumption|].
  apply cascade_records_forall.
  - intros doc score. unfold is_kb_record, vector_record. eauto 10.
  - intros [] r H; try discriminate H. injection H as <-.
    apply row_record_is_kb_record.
  - intros row. apply row_record_is_kb_record.
  - intros [] r H; try discriminate H. injection H as <-.
    apply row_record_is_kb_record.
Qed.

(** X10. Records from the direct-connection fallback all carry the similarity
    0.75 and records from the table-API fallback 0.8; when the similarity
    search left nothing and the RPC raised before recording anything, the
    list returned is one or the other. *)
Theorem fallback_records_carry_placeholders cfg w now query fr :
  Forall (fun r => similarity_of r = JNum (3 # 4)) (direct_records w query) /\
  Forall (fun r => similarity_of r = JNum (4 # 5)) (keyword_records w query) /\
  (configured cfg = true -> cache_miss cfg w now query fr ->
   vector_records cfg w query = [] -> rpc_raised w query ->
   rpc_records w query = [] ->
   fst (search_knowledge_base cfg w now query fr)
   = inr (JList (if is_nil (direct_records w query)
                 then keyword_records w query
                 else direct_records w query))).
Proof.
  split; [|split].
  - apply (direct_records_forall (fun r => similarity_of r = JNum (3 # 4))).
    intros row. reflexivity.
  - apply (keyword_records_forall (fun r => similarity_of r = JNum (4 # 5))).
    intros [] r H; try discriminate H. injection H as <-. reflexivity.
  - intros Hc Hm Hv Hr Hrpc. rewrite value_on_miss by assumption.
    destruct (first_producer_wins_cascade cfg w query) as (_ & _ & Hd & Hk).
    destruct (is_nil (direct_records w query)) eqn:Hdr.
    + apply Hk; auto. apply is_nil_true, Hdr.
    + apply Hd; auto. apply is_nil_false, Hdr.
Qed.

(** *** No backend is asked twice *)

Lemma kinds_nil lo hi : kinds_in lo hi [].
Proof. split; [constructor|exact I]. Qed.

Lemma strictly_ascending_app l1 l2 :
  strictly_ascending l1 -> strictly_ascending l2 ->
  (forall x y, In x l1 -> In y l2 -> (x < y)%nat) ->
  strictly_ascending (l1 ++ l2).
Proof.
  induction l1 as [|x l1 IH]; intros H1 H2 Hlt; simpl; [exact H2|].
  destruct H1 as [Hx H1]. split.
  - destruct l1 as [|y l1]; simpl.
    + destruct l2 as [|y l2]; [exact I|]. apply Hlt; simpl; auto.
    + exact Hx.
  - apply IH; auto. intros; apply Hlt; simpl; auto.
Qed.

Lemma kinds_app lo mid mid' hi cs1 cs2 :
  kinds_in lo mid cs1 -> kinds_in mid' hi cs2 -> (mid < mid')%nat ->
  (lo <= mid')%nat -> (mid <= hi)%nat ->
  kinds_in lo hi (cs1 ++ cs2).
Proof.
  intros [Hall1 Hasc1] [Hall2 Hasc2] ? ? ?. split.
  - apply Forall_app; split; (eapply Forall_impl; [eassumption|]);
      simpl; intros; lia.
  - rewrite map_app. apply strictly_ascending_app; auto.
    intros x y Hx Hy.
    apply in_map_iff in Hx as (c1 & <- & Hc1).
    apply in_map_iff in Hy as (c2 & <- & Hc2).
    rewrite Forall_forall in Hall1, Hall2.
    apply list_elem_of_In in Hc1, Hc2.
    specialize (Hall1 _ Hc1). specialize (Hall2 _ Hc2). lia.
Qed.

Ltac kinds_block :=
  split; [repeat constructor; simpl; lia | simpl; repeat split; lia].

Lemma kinds_probe cfg key : kinds_in 1 1 (probe_calls cfg key).
Proof.
  unfold probe_calls. destruct (_ && _); [kinds_block|apply kinds_nil].
Qed.

Lemma kinds_vector cfg query : kinds_in 2 2 (vector_calls cfg query).
Proof.
  unfold vector_calls. destruct (vector_store cfg); [kinds_block|apply kinds_nil].
Qed.

Lemma kinds_rpc w query : kinds_in 3 4 (rpc_calls w query).
Proof. unfold rpc_calls. destruct (embed_query w query); kinds_block. Qed.

Lemma kinds_direct w query : kinds_in 5 6 (direct_calls w query).
Proof.
  unfold direct_calls. destruct (direct_sql query); [|apply kinds_nil].
  destruct (pg_connect w); kinds_block.
Qed.

Lemma kinds_keyword query : kinds_in 7 7 (keyword_calls query).
Proof.
  unfold keyword_calls. destruct (keyword_pattern query);
    [kinds_block|apply kinds_nil].
Qed.

Lemma kinds_writeback cfg w query : kinds_in 8 8 (writeback_calls cfg w query).
Proof.
  unfold writeback_calls. cbv zeta.
  destruct (_ && _); [|apply kinds_nil].
  destruct (_ || _); [apply kinds_nil|].
  destruct (serialisable _); [kinds_block|apply kinds_nil].
Qed.

Lemma kinds_issued cfg w now query fr : kinds_in 1 8 (issued cfg w now query fr).
Proof.
  unfold issued. destruct (configured cfg); [|apply kinds_nil].
  eapply (kinds_app 1 1 2 8); [apply kinds_probe| |lia|lia|lia].
  destruct (truthy _); [apply kinds_nil|].
  eapply (kinds_app 2 7 8 8); [|apply kinds_writeback|lia|lia|lia].
  unfold cascade_calls.
  eapply (kinds_app 2 2 3 7); [apply kinds_vector| |lia|lia|lia].
  destruct (is_nil _); [|apply kinds_nil].
  eapply (kinds_app 3 4 5 7); [apply kinds_rpc| |lia|lia|lia].
  destruct (has_raised _); [|apply kinds_nil].
  unfold handler_calls.
  eapply (kinds_app 5 6 7 7); [apply kinds_direct| |lia|lia|lia].
  destruct (is_nil _); [apply kinds_keyword|apply kinds_nil].
Qed.

Lemma strictly_ascending_bound x l hi :
  Forall (fun y => (y <= hi)%nat) (x :: l) -> strictly_ascending (x :: l) ->
  (length (x :: l) + x <= hi + 1)%nat.
Proof.
  revert x. induction l as [|y l IH]; intros x Hall Hasc.
  - apply Forall_cons in Hall as [Hx _]. simpl. lia.
  - apply Forall_cons in Hall as [_ Hall]. destruct Hasc as [Hlt Hasc].
    specialize (IH y Hall Hasc). simpl in *. lia.
Qed.

(** X28. Records that the RPC loop appended before it raised are kept: when
    the similarity search left nothing and the RPC strategy raised, the
    list returned on a cache miss is those records, followed by the records
    of the direct-connection fallback, followed by those of the table-API
    fallback when neither left any. *)
Theorem partial_rpc_records_are_kept cfg w now query fr :
  configured cfg = true -> cache_miss cfg w now query fr ->
  vector_records cfg w query = [] -> rpc_raised w query ->
  fst (search_knowledge_base cfg w now query fr)
  = inr (JList (rpc_records w query ++ direct_records w query ++
                (if is_nil (rpc_records w query ++ direct_records w query)
                 then keyword_records w query else []))).
Proof.
  intros Hc Hm Hv Hr. rewrite value_on_miss by assumption.
  unfold cascade_records, handler_records.
  unfold vector_records in Hv. unfold rpc_raised in Hr. rewrite Hv, Hr.
  reflexivity.
Qed.

(** X11. One call issues each backend operation at most once, in cascade order:
    cache read, similarity search, embedding, RPC, database connection,
    database query, table query, cache write; hence at most eight calls. *)
Theorem each_backend_asked_at_most_once cfg w now query fr :
  exists cs,
    calls (snd (search_knowledge_base cfg w now query fr)) = calls fr ++ cs /\
    strictly_ascending (map kind cs) /\
    (length cs <= 8)%nat.
Proof.
  exists (issued cfg w now query fr). split; [apply calls_issued|].
  destruct (kinds_issued cfg w now query fr) as [Hall Hasc].
  split; [exact Hasc|].
  rewrite <- (length_map kind).
  destruct (map kind (issued cfg w now query fr)) as [|x l] eqn:Hk; [simpl; lia|].
  assert (Hhi : Forall (fun y => (y <= 8)%nat) (x :: l)).
  { rewrite <- Hk. apply Forall_fmap. eapply Forall_impl; [exact Hall|].
    simpl. intros; lia. }
  assert (Hlo : (1 <= x)%nat).
  { assert (Hin : In x (map kind (issued cfg w now query fr)))
      by (rewrite Hk; left; reflexivity).
    apply in_map_iff in Hin as (c & <- & Hc).
    rewrite Forall_forall in Hall. apply list_elem_of_In in Hc.
    specialize (Hall _ Hc). lia. }
  pose proof (strictly_ascending_bound x l 8 Hhi Hasc). lia.
Qed.

(** *** The keyword fallbacks and the query's tokens *)

Lemma in_issued c cfg w now query fr :
  In c (issued cfg w now query fr) ->
  In c (probe_calls cfg (cache_key_of query)) \/ In c (vector_calls cfg query) \/
  In c (rpc_calls w query) \/ In c (direct_calls w query) \/
  In c (keyword_calls query) \/ In c (writeback_calls cfg w query).
Proof.
  unfold issued, cascade_calls, handler_calls.
  destruct (configured cfg); [|intros []].
  repeat match goal with
         | |- context [if ?b then _ else _] => destruct b
         end;
    rewrite ?in_app_iff; simpl; tauto.
Qed.

Lemma conditions_of_length keywords :
  (length (conditions_of keywords) <= 3)%nat.
Proof.
  unfold conditions_of. rewrite length_map.
  etransitivity; [apply length_filter|].
  rewrite length_take. lia.
Qed.

Lemma conditions_of_witness keywords :
  conditions_of keywords <> [] ->
  exists keyword, In keyword (take 3 keywords) /\ (2 < String.length keyword)%nat.
Proof.
  unfold conditions_of. intros Hne.
  destruct (filter _ (take 3 keywords)) as [|kw l] eqn:Hf; [destruct Hne; reflexivity|].
  assert (Hin : kw ∈ filter (fun keyword => (2 <? String.length keyword)%nat = true)
                      (take 3 keywords)) by (rewrite Hf; left).
  apply list_elem_of_filter in Hin as [Hlen Hin].
  exists kw. split; [apply list_elem_of_In, Hin|]. apply Nat.ltb_lt, Hlen.
Qed.

Lemma direct_sql_some query sql :
  direct_sql query = Some sql ->
  conditions_of (tokens query) <> [] /\
  sql = sql_query_of (Text.join " OR " (conditions_of (tokens query))).
Proof.
  unfold direct_sql, tokens.
  destruct (conditions_of _) as [|c cs]; [discriminate|].
  intros H; injection H as <-. split; [discriminate|reflexivity].
Qed.

(** X12. The direct-connection fallback queries the database only when one of
    the first three tokens of the lower-cased query is longer than two
    characters, and its query then combines between one and three [ILIKE]
    conditions built from those tokens; the table-API fallback needs the
    query to have a token at all. A blank query reaches neither. *)
Theorem keyword_fallbacks_need_tokens cfg w now query fr cs :
  calls (snd (search_knowledge_base cfg w now query fr)) = calls fr ++ cs ->
  (attempted 4 cs ->
   exists keyword, In keyword (take 3 (tokens query)) /\
                   (2 < String.length keyword)%nat) /\
  (attempted 5 cs -> tokens query <> []) /\
  (forall sql,
     In (PgExecute sql) cs ->
     sql = sql_query_of (Text.join " OR " (conditions_of (tokens query))) /\
     (1 <= length (conditions_of (tokens query)) <= 3)%nat).
Proof.
  rewrite calls_issued. intros Hcs. apply app_inv_head in Hcs. subst cs.
  split; [|split].
  - intros H. apply attempted_issued in H as (_ & _ & H); [|lia].
    apply attempted_cascade in H as [[Hk _]|(_ & [Hk|(_ & H)])];
      try discriminate Hk.
    apply attempted_handler in H as [[_ Hsql]|[Hk _]]; [|discriminate Hk].
    destruct (direct_sql query) as [sql|] eqn:Hd; [|congruence].
    apply direct_sql_some in Hd as [Hne _].
    apply conditions_of_witness, Hne.
  - intros H. apply attempted_issued in H as (_ & _ & H); [|lia].
    apply attempted_cascade in H as [[Hk _]|(_ & [Hk|(_ & H)])];
      try discriminate Hk.
    apply attempted_handler in H as [[Hk _]|(_ & _ & Hpat)]; [discriminate Hk|].
    unfold keyword_pattern, tokens in *.
    destruct (Text.split (Text.lower query)); congruence.
  - intros sql Hin. apply in_issued in Hin as [H|[H|[H|[H|[H|H]]]]].
    + unfold probe_calls in H. destruct (_ && _); simpl in H;
        intuition discriminate.
    + unfold vector_calls in H. destruct (vector_store cfg); simpl in H;
        intuition discriminate.
    + unfold rpc_calls in H. destruct (embed_query w query); simpl in H;
        intuition discriminate.
    + unfold direct_calls in H.
      destruct (direct_sql query) as [sql'|] eqn:Hd; [|destruct H].
      apply direct_sql_some in Hd as [Hne ->].
      assert (Hsql : sql_query_of (Text.join " OR " (conditions_of (tokens query)))
                     = sql).
      { destruct (pg_connect w); simpl in H;
          repeat (destruct H as [H|H]; try discriminate H; try (injection H; auto));
          destruct H. }
      split; [symmetry; exact Hsql|].
      pose proof (conditions_of_length (tokens query)).
      destruct (conditions_of (tokens query)); [congruence|simpl in *; lia].
    + unfold keyword_calls in H. destruct (keyword_pattern query); simpl in H;
        intuition discriminate.
    + unfold writeback_calls in H. cbv zeta in H.
      destruct (_ && _); [|destruct H]. destruct (_ || _); [destruct H|].
      destruct (serialisable _); simpl in H; intuition discriminate.
Qed.

End CascadeMore.

(** ** More on turns *)

Module TurnFacts.
Import Node Graph Routing TurnVocab EffFacts.

(** X13. The supervisor's specialists are distinct, and the list of routing
    reasons runs parallel to them: same length, and at each position the
    reason that belongs to the specialist at that position. *)
Theorem routing_reasons_run_parallel response :
  let specialists := fst (analyze_response response) in
  let routing_reasons := snd (analyze_response response) in
  length routing_reasons = length specialists /\
  NoDup specialists /\
  forall i s,
    specialists !! i = Some s ->
    exists reason, In (s, reason) reason_table /\
                   routing_reasons !! i = Some reason.
Proof.
  unfold analyze_response, reason_table.
  generalize (Text.lower response). intros r.
  repeat match goal with
         | |- context [Text.any_in ?kws r] =>
             let b := fresh "b" in
             set (b := Text.any_in kws r); clearbody b
         end.
  destruct b, b0, b1, b2; cbv zeta; cbn [fst snd app length];
    (split; [reflexivity|]);
    (split; [apply NoDup_ListNoDup; repeat constructor; simpl;
             intuition discriminate|]);
    intros i s Hi;
    repeat (destruct i as [|i]; [apply (inj Some) in Hi; subst s; eexists; split;
                                 [simpl; eauto 6|reflexivity]|]);
    discriminate Hi.
Qed.

Lemma messages_apply_update st u :
  messages u = None -> messages (apply_update st u) = messages st.
Proof. intros H. unfold apply_update. cbn [messages]. rewrite H. reflexivity. Qed.

Lemma supervisor_node_run env st tr latest :
  last (get_or (messages st) []) = Some latest ->
  supervisor_node env st tr
  = (inl (ToolInterface.validation_error (validation_detail env (JStr latest))),
     tr ++ [KbSearch latest; PartnerLookup (JStr latest)]).
Proof.
  intros Hlast. unfold supervisor_node. rewrite Hlast.
  rewrite bind_run. unfold call_search_knowledge_base at 1. cbv beta iota.
  rewrite bind_run. unfold call_get_ecosystem_partners at 1. cbv beta iota.
  cbn [ToolInterface.is_optional_dict]. rewrite <- app_assoc. reflexivity.
Qed.

(** X14. On every non-empty message list [supervisor_node] raises: after the
    knowledge-base look-up it hands the latest message, a string, to the
    partner tool, whose wrapper refuses what is not a dictionary. The error
    is not caught, the supervisor agent is never called and lines 87-145
    are not reached. *)
Theorem supervisor_node_refused_by_partner_tool env st tr latest :
  last (get_or (messages st) []) = Some latest ->
  supervisor_node env st tr
  = (inl (ToolInterface.validation_error (validation_detail env (JStr latest))),
     tr ++ [KbSearch latest; PartnerLookup (JStr latest)]).
Proof. exact (supervisor_node_run env st tr latest). Qed.

(** No node of the graph writes the [messages] key. *)
Lemma nodes_leave_messages env name f st tr cmd tr' :
  find_node name (nodes climate_graph) = Some f ->
  f env st tr = (inr cmd, tr') -> messages (update cmd) = None.
Proof.
  intros Hfind Hrun.
  unfold climate_graph, create_graph_with_config, create_climate_graph in Hfind.
  cbn [nodes find_node] in Hfind.
  repeat match type of Hfind with
         | (if String.eqb ?n name then _ else _) = _ =>
             destruct (String.eqb n name)
         end;
    try discriminate Hfind; injection Hfind as <-.
  - destruct (last (get_or (messages st) [])) as [latest|] eqn:Hlast.
    + rewrite (supervisor_node_run env st tr latest Hlast) in Hrun.
      discriminate Hrun.
    + unfold supervisor_node in Hrun. rewrite Hlast in Hrun.
      injection Hrun as <- _. reflexivity.
  - injection Hrun as <- _. reflexivity.
  - injection Hrun as <- _. reflexivity.
  - injection Hrun as <- _. reflexivity.
  - injection Hrun as <- _. reflexivity.
  - unfold integrate_responses_node in Hrun.
    destruct (get_or (specialist_responses st) []);
      injection Hrun as <- _; reflexivity.
  - unfold human_feedback_node in Hrun. cbn [placeholder_feedback approved] in Hrun.
    destruct (get_or (specialists_to_call st) []);
      [discriminate Hrun|injection Hrun as <- _; reflexivity].
Qed.

Lemma step_keeps_messages env t :
  messages (state (step climate_graph env t)) = messages (state t).
Proof.
  unfold step. destruct (status t) as [name| |]; try reflexivity.
  destruct (find_node name (nodes climate_graph)) as [f|] eqn:Hfind;
    [|reflexivity].
  destruct (f env (state t) (trace t)) as [[e|cmd] tr'] eqn:Hrun;
    [reflexivity|].
  cbn [state]. apply messages_apply_update.
  exact (nodes_leave_messages env name f _ _ cmd tr' Hfind Hrun).
Qed.

Lemma run_keeps_messages env n t :
  messages (state (run climate_graph env n t)) = messages (state t).
Proof.
  revert t. induction n as [|n IH]; intros t; [reflexivity|].
  cbn [run]. rewrite IH. apply step_keeps_messages.
Qed.

(** X15. No transition of a turn changes the message list. *)
Theorem turn_keeps_messages env st n :
  messages (state (invoke climate_graph env st n)) = messages st.
Proof.
  unfold invoke. rewrite run_keeps_messages. reflexivity.
Qed.

(** The accumulating loop of the integration node builds the header
    followed by the entries, one after the other. *)
Lemma fold_left_analysis entries init :
  fold_left (fun acc entry => acc +:+ analysis_of entry) entries init
  = init +:+ String.concat "" (map analysis_of entries).
Proof.
  revert init. induction entries as [|e entries IH]; intros init; simpl.
  - symmetry. apply NodeFacts.append_empty_r.
  - rewrite IH. rewrite NodeFacts.append_assoc. f_equal.
    destruct entries as [|e' entries]; simpl;
      rewrite ?NodeFacts.append_empty_r; reflexivity.
Qed.

(** X29. On a non-empty specialist-result map the integration node calls no
    collaborator and hands control to the supervisor with a final response
    made of the header followed by one block per recorded response, in the
    map's insertion order: the capitalised name, ['s Analysis:], a line
    break, the response and a blank line. *)
Theorem integrate_responses_node_composes st tr entry entries :
  specialist_responses st = Some (entry :: entries) ->
  integrate_responses_node st tr
  = (inr {| goto := "supervisor";
            update :=
              {| messages := None; specialists_to_call := None;
                 routing_reasons := None; context := None;
                 specialist_responses := None; feedback := None;
                 error := None;
                 final_response :=
                   Some (integrated_header +:+
                         String.concat "" (map analysis_of (entry :: entries)))
              |} |},
     tr) /\
  forall name response,
    analysis_of (name, response)
    = Text.capitalize name +:+ "'s Analysis:" +:+ nl +:+ response
      +:+ nl +:+ nl.
Proof.
  intros Hresp. split; [|reflexivity]. unfold integrate_responses_node.
  rewrite Hresp. cbn [get_or]. rewrite fold_left_analysis. reflexivity.
Qed.

End TurnFacts.

(** ** The remaining tools *)

Module ToolboxFacts.
Import ToolInterface Toolbox ToolboxVocab EffFacts.

Lemma toolbox_log_run c fr :
  log_call c fr = (inr tt, {| ext_calls := ext_calls fr ++ [c];
                         formatted_results := formatted_results fr |}).
Proof. reflexivity. Qed.

Ltac run :=
  repeat (progress (rewrite ?bind_run, ?try_catch_run, ?ret_run, ?raise_run,
                      ?lift_run, ?modify_run, ?toolbox_log_run;
                    cbv beta iota;
                    cbn [fst snd ext_calls formatted_results])).

(** X18. [validate_user_age] accepts a birth date exactly from the eleventh
    birthday on, and its message agrees with its verdict; text that is not
    a date gives the verdict [False] with the format message. *)
Theorem valid_from_eleventh_birthday w birth_date :
  (forall birth,
     strptime w birth_date = Some birth ->
     exists valid,
       validate_user_age w birth_date
       = age_result valid (if valid then "Age verification successful"
                           else "Users must be over 10 years old") /\
       (valid = true <-> anniversary_reached 11 (today w) birth)) /\
  (strptime w birth_date = None ->
   validate_user_age w birth_date
   = age_result false "Invalid date format. Use YYYY-MM-DD").
Proof.
  unfold validate_user_age. split.
  - intros birth ->. eexists. split; [reflexivity|].
    unfold age_of, pair_lt, anniversary_reached. cbn [fst snd].
    rewrite Z.ltb_lt.
    destruct (month (today w) <? month birth)%Z eqn:Hm;
      [apply Z.ltb_lt in Hm|apply Z.ltb_ge in Hm]; cbn [orb].
    + lia.
    + destruct (month (today w) =? month birth)%Z eqn:He;
        [apply Z.eqb_eq in He|apply Z.eqb_neq in He]; cbn [andb].
      * destruct (day (today w) <? day birth)%Z eqn:Hd;
          [apply Z.ltb_lt in Hd|apply Z.ltb_ge in Hd]; lia.
      * lia.
  - intros ->. reflexivity.
Qed.

Lemma fold_left_snoc {A B} (f : A -> B) (l : list A) (acc : list B) :
  fold_left (fun query x => query ++ [f x]) l acc = acc ++ map f l.
Proof.
  revert acc. induction l as [|x l IH]; intros acc; simpl.
  - symmetry. apply app_nil_r.
  - rewrite IH, <- app_assoc. reflexivity.
Qed.

(** X19. The exported tool [get_ecosystem_partners] raises exactly when its
    argument is neither [None] nor a dictionary: its wrapper refuses the
    argument with a [ValidationError] before the function runs, so nothing
    is asked, with or without Supabase. On [None] or a dictionary the tool
    is the function under the wrapper, which never raises on any argument:
    without Supabase it answers the "not available" record and asks
    nothing, and reached directly (through [.func]) with a truthy argument
    that is no dictionary it answers the empty list and asks nothing. *)
Theorem get_ecosystem_partners_checks_filters available w filters fr :
  (is_optional_dict filters = false ->
   get_ecosystem_partners available w filters fr
   = (inl (validation_error (validation_detail w filters)), fr)) /\
  (is_optional_dict filters = true ->
   get_ecosystem_partners available w filters fr
   = get_ecosystem_partners_func available w filters fr) /\
  exists v fr',
    get_ecosystem_partners_func available w filters fr = (inr v, fr') /\
    (available = false ->
     v = JList [JObj [("error", JStr "Database is not available")]] /\ fr' = fr) /\
    (available = true -> truthy filters = true ->
     (forall kv, filters <> JObj kv) ->
     v = JList [] /\ fr' = fr).
Proof.
  split; [|split].
  - intros H. unfold get_ecosystem_partners. rewrite H. reflexivity.
  - intros H. unfold get_ecosystem_partners. rewrite H. reflexivity.
  - unfold get_ecosystem_partners_func. destruct available; cbn [negb].
    2: { do 2 eexists. split; [reflexivity|]. split; [auto|discriminate]. }
    run. destruct (truthy filters) eqn:Ht.
    + run. unfold items_of. destruct filters as [| | | | |kv|]; run;
        try (do 2 eexists; split; [reflexivity|]; split; [discriminate|];
             intros _ _ _; auto).
      unfold execute_select. run.
      destruct (table_select w _ _) as [e|data]; run;
        (do 2 eexists; split; [reflexivity|]; split; [discriminate|];
         intros _ _ H; destruct (H kv eq_refl)).
    + run. unfold execute_select. run.
      destruct (table_select w _ _) as [e|data]; run;
        (do 2 eexists; split; [reflexivity|]; split; [discriminate|];
         intros _ H; discriminate H).
Qed.

(** X20. Given a dictionary of filters, [get_ecosystem_partners] asks the partner
    table once, with one predicate per filter in the dictionary's order: a
    substring match for a string value, equality for any other. It answers
    the rows, or the empty list when there are none or the query fails. *)
Theorem partners_query_follows_filters w kv fr :
  get_ecosystem_partners true w (JObj kv) fr
  = (inr (match table_select w "partner_organizations" (map predicate_of kv) with
          | inl _ => JList []
          | inr data => if truthy data then data else JList []
          end),
     {| ext_calls := ext_calls fr ++ [TableSelect "partner_organizations"
                                          (map predicate_of kv)];
        formatted_results := formatted_results fr |}) /\
  (forall key value,
     predicate_of (key, JStr value) = Ilike key ("%" +:+ value +:+ "%")) /\
  (forall key value,
     (forall s, value <> JStr s) -> predicate_of (key, value) = Eq key value).
Proof.
  split; [|split].
  - unfold get_ecosystem_partners. cbn [is_optional_dict].
    unfold get_ecosystem_partners_func. cbn [negb]. run.
    destruct kv as [|p kv]; cbn [truthy]; run.
    + unfold execute_select. run.
      destruct (table_select w _ _) as [e|data]; reflexivity.
    + unfold items_of. run. rewrite fold_left_snoc. cbn [app].
      unfold execute_select. run.
      destruct (table_select w _ _) as [e|data]; reflexivity.
  - reflexivity.
  - intros key [] H; try reflexivity. destruct (H s eq_refl).
Qed.

(** *** Web search tools *)

Lemma format_loop_run w i docs fr :
  format_loop w i docs fr
  = (match snd (formatted w i docs) with Some e => inl e | None => inr tt end,
     {| ext_calls := ext_calls fr;
        formatted_results := formatted_results fr ++ fst (formatted w i docs) |}).
Proof.
  revert i fr. induction docs as [|doc docs IH]; intros i fr;
    cbn [format_loop formatted].
  - run. cbn [fst snd]. rewrite app_nil_r. destruct fr; reflexivity.
  - run. destruct (format_source w i doc) as [e|line]; run.
    + cbn [fst snd]. rewrite app_nil_r. destruct fr; reflexivity.
    + unfold append_formatted. run. rewrite IH. cbn [ext_calls formatted_results].
      destruct (formatted w (S i) docs) as [lines o]. cbn [fst snd].
      rewrite <- app_assoc. reflexivity.
Qed.

(** The answer of a web tool. *)
Lemma web_tool_run w enhanced_query error_prefix fr :
  exists fr',
    web_tool w enhanced_query error_prefix fr
    = (inr (match tavily_invoke w 3 enhanced_query with
            | inl e => error_prefix +:+ exn_msg e
            | inr docs =>
                match formatted w 0 docs with
                | (_, Some e) => error_prefix +:+ exn_msg e
                | (lines, None) => Text.join blank_line lines
                end
            end), fr') /\
    ext_calls fr' = ext_calls fr ++ [TavilyInvoke 3 enhanced_query].
Proof.
  unfold web_tool. run.
  destruct (tavily_invoke w 3 enhanced_query) as [e|docs]; run.
  { eexists; split; reflexivity. }
  unfold set_formatted. run. rewrite format_loop_run.
  cbn [ext_calls formatted_results app].
  destruct (formatted w 0 docs) as [lines [e|]]; cbn [fst snd]; run.
  - eexists; split; reflexivity.
  - unfold get_formatted. run. eexists; split; reflexivity.
Qed.

Lemma formatted_stops w i docs :
  (exists doc, In doc docs /\ ~ is_dict doc) ->
  exists doc,
    In doc docs /\ ~ is_dict doc /\
    snd (formatted w i docs) = Some (no_attribute (type_name w doc) "get").
Proof.
  revert i. induction docs as [|doc docs IH]; intros i (d & Hin & Hd);
    [destruct Hin|]. cbn [formatted].
  assert (Hbad : forall v, ~ is_dict v ->
            format_source w i v = inl (no_attribute (type_name w v) "get")).
  { intros [| | | | |kv|] Hv; try reflexivity.
    destruct Hv; eexists; reflexivity. }
  destruct doc as [| | | | |kv|];
    try (eexists; split; [left; reflexivity|];
         split; [intros [kv' H]; discriminate H|];
         rewrite Hbad by (intros [kv' H]; discriminate H); reflexivity).
  cbn [format_source].
  destruct Hin as [<-|Hin]; [destruct Hd; eexists; reflexivity|].
  destruct (IH (S i) (ex_intro _ d (conj Hin Hd))) as (d' & Hin' & Hd' & Hs).
  exists d'. split; [right; exact Hin'|]. split; [exact Hd'|].
  destruct (formatted w (S i) docs) as [lines o]. exact Hs.
Qed.

Lemma formatted_all w i docs :
  Forall is_dict docs ->
  snd (formatted w i docs) = None /\
  length (fst (formatted w i docs)) = length docs /\
  forall n kv,
    docs !! n = Some (JObj kv) ->
    fst (formatted w i docs) !! n
    = Some ("Source " +:+ pretty (i + n + 1)%nat +:+ " ("
            +:+ py_str (render w) (dict_get kv "url" (JStr "unknown source"))
            +:+ "): "
            +:+ py_str (render w) (dict_get kv "content" (JStr ""))).
Proof.
  revert i. induction docs as [|doc docs IH]; intros i Hall; cbn [formatted].
  - repeat split. intros n kv H. destruct n; discriminate H.
  - apply Forall_cons in Hall as [[kv0 ->] Hall]. cbn [format_source].
    destruct (IH (S i) Hall) as (Hnone & Hlen & Hnth).
    destruct (formatted w (S i) docs) as [lines o]. cbn [fst snd] in *.
    split; [exact Hnone|]. split; [simpl; congruence|].
    intros [|n] kv H.
    + apply (inj Some) in H. injection H as <-.
      rewrite Nat.add_0_r. reflexivity.
    + change ((JObj kv0 :: docs) !! S n) with (docs !! n) in H.
      match goal with
      | |- (?x :: lines) !! S n = _ => change ((x :: lines) !! S n) with (lines !! n)
      end.
      rewrite (Hnth n kv H).
      replace (S i + n + 1)%nat with (i + S n + 1)%nat by lia. reflexivity.
Qed.

(** X21. A web tool never raises and asks the search backend exactly once. When
    the search fails, or any document of the answer is not a dictionary,
    the whole answer is the tool's error text: no partial list of sources is
    returned. *)
Theorem web_tool_fails_as_a_whole w enhanced_query error_prefix fr :
  exists out fr',
    web_tool w enhanced_query error_prefix fr = (inr out, fr') /\
    ext_calls fr' = ext_calls fr ++ [TavilyInvoke 3 enhanced_query] /\
    (forall e, tavily_invoke w 3 enhanced_query = inl e ->
               out = error_prefix +:+ exn_msg e) /\
    (forall docs,
       tavily_invoke w 3 enhanced_query = inr docs ->
       (exists doc, In doc docs /\ ~ is_dict doc) ->
       exists doc,
         In doc docs /\ ~ is_dict doc /\
         out = error_prefix +:+ "'" +:+ type_name w doc
               +:+ "' object has no attribute 'get'").
Proof.
  destruct (web_tool_run w enhanced_query error_prefix fr) as (fr' & Hrun & Hcalls).
  do 2 eexists. split; [exact Hrun|]. split; [exact Hcalls|]. split.
  - intros e ->. reflexivity.
  - intros docs -> Hbad.
    destruct (formatted_stops w 0 docs Hbad) as (doc & Hin & Hd & Hs).
    exists doc. split; [exact Hin|]. split; [exact Hd|].
    destruct (formatted w 0 docs) as [lines o]. cbn [snd] in Hs. subst o.
    reflexivity.
Qed.

(** X22. When every document of the answer is a dictionary, a web tool returns
    one line per document, in order and numbered from 1, each giving the
    document's url (or "unknown source") and content, the lines joined by a
    blank line; no document gives the empty string. *)
Theorem web_tool_lists_every_source w enhanced_query error_prefix fr docs :
  tavily_invoke w 3 enhanced_query = inr docs ->
  Forall is_dict docs ->
  exists lines,
    fst (web_tool w enhanced_query error_prefix fr)
    = inr (Text.join blank_line lines) /\
    length lines = length docs /\
    (forall n kv,
       docs !! n = Some (JObj kv) ->
       lines !! n
       = Some ("Source " +:+ pretty (n + 1)%nat +:+ " ("
               +:+ py_str (render w) (dict_get kv "url" (JStr "unknown source"))
               +:+ "): "
               +:+ py_str (render w) (dict_get kv "content" (JStr "")))) /\
    (docs = [] -> fst (web_tool w enhanced_query error_prefix fr) = inr "").
Proof.
  intros Hinv Hall.
  destruct (web_tool_run w enhanced_query error_prefix fr) as (fr' & Hrun & _).
  rewrite Hrun, Hinv. cbn [fst].
  destruct (formatted_all w 0 docs Hall) as (Hnone & Hlen & Hnth).
  exists (fst (formatted w 0 docs)).
  split; [destruct (formatted w 0 docs) as [lines o]; cbn [fst snd] in *;
          subst o; reflexivity|].
  split; [exact Hlen|]. split; [exact Hnth|].
  intros ->. reflexivity.
Qed.

(** *** The caller's text inside the query *)

Lemma ascii_eqb_refl c : Ascii.eqb c c = true.
Proof. apply Ascii.eqb_eq. reflexivity. Qed.

Lemma starts_with_app n b : Text.starts_with n (n +:+ b) = true.
Proof.
  induction n as [|c n IH]; [reflexivity|].
  change (String c n +:+ b) with (String c (n +:+ b)).
  cbn [Text.starts_with]. rewrite ascii_eqb_refl. exact IH.
Qed.

Lemma contains_unfold n h :
  Text.contains n h
  = Text.starts_with n h ||
    match h with EmptyString => false | String _ h' => Text.contains n h' end.
Proof. destruct h; reflexivity. Qed.

Lemma contains_here n b : Text.contains n (n +:+ b) = true.
Proof. rewrite contains_unfold, starts_with_app. reflexivity. Qed.

Lemma contains_self n : Text.contains n n = true.
Proof.
  rewrite <- (NodeFacts.append_empty_r n) at 2. apply contains_here.
Qed.

Lemma contains_skip n a h :
  Text.contains n h = true -> Text.contains n (a +:+ h) = true.
Proof.
  intros H. induction a as [|c a IH]; [exact H|].
  change (String c a +:+ h) with (String c (a +:+ h)).
  rewrite contains_unfold, IH. apply orb_true_r.
Qed.

Ltac find_text :=
  first [apply contains_here | apply contains_self
        | apply contains_skip; find_text].

(** X23. Each of the eight web tools asks the search backend exactly once, for
    three results, and the query it sends contains the caller's text
    unchanged. *)
Theorem web_tools_forward_the_text w :
  forwards (search_clean_energy_web w) /\
  forwards (search_massachusetts_resources w) /\
  forwards (locate_ej_training_resources w) /\
  forwards (find_dei_programs w) /\
  forwards (translate_military_occupation w) /\
  forwards (find_veteran_benefits w) /\
  (forall country,
     forwards (fun credential =>
                 evaluate_international_credential w credential country)) /\
  (forall credential,
     forwards (evaluate_international_credential w credential)) /\
  forwards (find_international_integration_resources w).
Proof.
  repeat match goal with |- _ /\ _ => split end;
    unfold forwards, search_clean_energy_web, search_massachusetts_resources,
      locate_ej_training_resources, find_dei_programs,
      translate_military_occupation, find_veteran_benefits,
      evaluate_international_credential,
      find_international_integration_resources; cbv zeta; intros;
    match goal with
    | |- exists query, ext_calls (snd (web_tool _ ?q ?p ?fr)) = _ /\ _ =>
        destruct (web_tool_run w q p fr) as (fr' & Hrun & Hcalls);
        exists q; rewrite Hrun; split; [exact Hcalls|find_text]
    end.
Qed.

(** *** Tools over Supabase procedures and the vector store *)

(** X24. [analyze_resume] never raises. Without a Supabase client it answers
    the empty dictionary and calls nothing; with one it calls the procedure
    once, and its answer is the empty dictionary (procedure failed, or its
    data is not a dictionary) or a dictionary with exactly the keys skills,
    experience, education, gaps and recommendations, an absent key reading
    as the empty list. *)
Theorem analyze_resume_has_five_keys available w resume_text fr :
  let params := [("resume_content", JStr resume_text);
                 ("sector", JStr "clean_energy")] in
  exists v fr',
    analyze_resume available w resume_text fr = (inr v, fr') /\
    (available = false -> v = JObj [] /\ fr' = fr) /\
    (available = true ->
     ext_calls fr' = ext_calls fr ++ [SupabaseRpc "analyze_resume" params] /\
     (forall kv,
        supabase_rpc w "analyze_resume" params = inr (JObj kv) ->
        v = JObj [("skills", dict_get kv "skills" (JList []));
                  ("experience", dict_get kv "experience" (JList []));
                  ("education", dict_get kv "education" (JList []));
                  ("gaps", dict_get kv "gaps" (JList []));
                  ("recommendations",
                   dict_get kv "recommendations" (JList []))]) /\
     ((forall kv, supabase_rpc w "analyze_resume" params <> inr (JObj kv)) ->
      v = JObj [])).
Proof.
  intros params. unfold analyze_resume, rpc_data. fold params.
  destruct available; run.
  2: { do 2 eexists. split; [reflexivity|]. split; [auto|discriminate]. }
  destruct (supabase_rpc w "analyze_resume" params) as [e|data]; run.
  { do 2 eexists. split; [reflexivity|]. split; [discriminate|]. intros _.
    split; [reflexivity|]. split; [discriminate|reflexivity]. }
  destruct data as [| | | | |kv|]; cbn [data_get]; run;
    (do 2 eexists; split; [reflexivity|]; split; [discriminate|]; intros _;
     split; [reflexivity|]);
    (split; [intros kv' H; try discriminate H|]);
    try (intros _; reflexivity).
  - injection H as <-. reflexivity.
  - intros H. destruct (H kv eq_refl).
Qed.

(** X25. The wrappers built on [rpc_or_default] never raise and call their
    procedure at most once (not at all without a Supabase client). With a
    client, their answer is the procedure's data whenever that is
    non-empty; in every other case it is the default: a missing client, a
    failed call and an empty result look the same to the caller. *)
Theorem rpc_wrappers_fall_back_to_default available w fn params default fr :
  exists v fr',
    rpc_or_default available w fn params default fr = (inr v, fr') /\
    ext_calls fr'
    = ext_calls fr ++ (if available then [SupabaseRpc fn params] else []) /\
    formatted_results fr' = formatted_results fr /\
    v = (if available then
           match supabase_rpc w fn params with
           | inr data => if truthy data then data else default
           | inl _ => default
           end
         else default) /\
    (forall data,
       available = true -> supabase_rpc w fn params = inr data ->
       truthy data = true -> v = data) /\
    (available = false -> v = default) /\
    ((exists e, supabase_rpc w fn params = inl e) -> v = default) /\
    (forall data, supabase_rpc w fn params = inr data -> truthy data = false ->
                  v = default).
Proof.
  unfold rpc_or_default, rpc_data. destruct available; run.
  2: { do 2 eexists. split; [reflexivity|]. rewrite app_nil_r.
       repeat split; auto; discriminate. }
  destruct (supabase_rpc w fn params) as [e|data] eqn:Hrpc; run.
  - do 2 eexists. split; [reflexivity|]. repeat split; auto; discriminate.
  - destruct (truthy data) eqn:Ht; do 2 eexists;
      (split; [reflexivity|]); repeat split; auto; try discriminate;
      try (intros [e He]; discriminate He);
      try (intros data' _ H Hf; injection H as <-; congruence);
      try (intros data' H Hf; injection H as <-; congruence).
Qed.

(** X26. The vector-store tools of lines 143-271 have no [try] block: they raise
    exactly when the vector store is missing or the search raises, and they
    ask nothing when the store is missing. Otherwise they answer the page
    contents joined by a blank line. *)
Theorem similarity_tools_let_failures_through store w query k filter fr :
  ((exists e, fst (similarity_tool store w query k filter fr) = inl e) <->
   store = false \/ exists e, similarity_search w query k filter = inl e) /\
  (store = false ->
   similarity_tool store w query k filter fr
   = (inl (no_attribute "NoneType" "similarity_search"), fr)) /\
  (forall docs,
     store = true -> similarity_search w query k filter = inr docs ->
     similarity_tool store w query k filter fr
     = (inr (Text.join blank_line (map Tools.page_content docs)),
        {| ext_calls := ext_calls fr ++ [SimilaritySearch query k filter];
           formatted_results := formatted_results fr |})).
Proof.
  unfold similarity_tool. destruct store.
  - run. destruct (similarity_search w query k filter) as [e|docs] eqn:Hs; run.
    + split; [split; eauto|]. split; [discriminate|]. intros docs _ H.
      discriminate H.
    + split.
      * split; [intros [e H]; discriminate H|].
        intros [H|[e H]]; discriminate H.
      * split; [discriminate|]. intros docs' _ H. injection H as <-. reflexivity.
  - run. split; [split; eauto|]. split; [reflexivity|discriminate].
Qed.

(** X27. [analyze_linkedin_profile] never raises. It answers its fixed template,
    whatever the page says, exactly when the page loaded with at least one
    document and that document's text was added to the vector store (once,
    tagged with the source and the url); in every other case it answers an
    error dictionary. *)
Theorem analyze_linkedin_profile_stores_then_answers store w url fr :
  exists v fr',
    analyze_linkedin_profile store w url fr = (inr v, fr') /\
    (v = linkedin_template \/
     exists reason,
       v = JObj [("error",
                  JStr ("Failed to analyze LinkedIn profile: " +:+ reason))]) /\
    (v = linkedin_template <->
     exists doc rest,
       web_load w url = inr (doc :: rest) /\ store = true /\
       add_texts w [Tools.page_content doc]
                 [[("source", JStr "linkedin"); ("url", JStr url)]] = inr tt) /\
    (v = linkedin_template ->
     exists doc,
       ext_calls fr' = ext_calls fr ++
                   [WebLoad url;
                    AddTexts [Tools.page_content doc]
                             [[("source", JStr "linkedin"); ("url", JStr url)]]]).
Proof.
  unfold analyze_linkedin_profile, analyze_page. fold linkedin_template. run.
  destruct (web_load w url) as [e|[|doc rest]] eqn:Hload; run.
  1,2: do 2 eexists; split; [reflexivity|]; split; [right; eexists; reflexivity|];
       split; [split; [discriminate|intros (d & r & H & _); discriminate H]
              |discriminate].
  destruct store; run.
  2: { do 2 eexists. split; [reflexivity|]. split; [right; eexists; reflexivity|].
       split; [split; [discriminate|intros (d & r & _ & H & _); discriminate H]
              |discriminate]. }
  destruct (add_texts w _ _) as [e|[]] eqn:Hadd; run.
  - do 2 eexists. split; [reflexivity|]. split; [right; eexists; reflexivity|].
    split; [split; [discriminate|]|discriminate].
    intros (d & r & H & _ & Ha). injection H as <- <-. rewrite Hadd in Ha.
    discriminate Ha.
  - do 2 eexists. split; [reflexivity|]. split; [left; reflexivity|].
    split; [split; [intros _; eauto 10|reflexivity]|].
    intros _. exists doc. cbn [ext_calls]. rewrite <- app_assoc. reflexivity.
Qed.

End ToolboxFacts.

(** ** Instances of the further properties *)

Module MoreInstances.
Import Tools Cascade Extra Samples MoreSamples.
Import CacheFacts CascadeMore TurnFacts ToolboxFacts.

Lemma cache_usable_sample : cache_usable cfg_full world_rpc_empty.
Proof. repeat split. Defined.

Lemma set_then_get_returns_value_witness :
  fst (set_in_cache cfg_full world_rpc_empty 10 "k" cached_value 60 empty_frame)
  = inr true /\
  fst (get_from_cache cfg_full world_rpc_empty 69 "k"
         (snd (set_in_cache cfg_full world_rpc_empty 10 "k" cached_value 60
                            empty_frame)))
  = inr cached_value.
Proof.
  apply (set_then_get_returns_value cfg_full world_rpc_empty world_rpc_empty
           10 69 "k" cached_value 60 empty_frame);
    [exact cache_usable_sample|exact cache_usable_sample|reflexivity
    |reflexivity|lia].
Defined.

Lemma stored_value_expires_witness :
  fst (get_from_cache cfg_full world_rpc_empty 70 "k"
         (snd (set_in_cache cfg_full world_rpc_empty 10 "k" cached_value 60
                            empty_frame)))
  = inr JNull.
Proof.
  apply (stored_value_expires cfg_full world_rpc_empty world_rpc_empty
           10 70 "k" cached_value 60 empty_frame);
    [exact cache_usable_sample|reflexivity|reflexivity|lia].
Defined.

Lemma last_write_wins_witness :
  fst (get_from_cache cfg_full world_rpc_empty 30 "k"
         (snd (set_in_cache cfg_full world_rpc_empty 20 "k" (JList []) 60
                 (snd (set_in_cache cfg_full world_rpc_empty 10 "k"
                                    cached_value 60 empty_frame)))))
  = inr (JList []).
Proof.
  apply (last_write_wins cfg_full world_rpc_empty world_rpc_empty
           world_rpc_empty 10 20 30 "k" cached_value (JList []) 60 60
           empty_frame);
    [exact cache_usable_sample|exact cache_usable_sample|reflexivity
    |reflexivity|lia].
Defined.

Lemma returned_records_have_six_keys_witness :
  exists rs,
    fst (search_knowledge_base cfg_full world_direct_only 0 "solar jobs"
                               empty_frame) = inr (JList rs) /\
    Forall is_kb_record rs.
Proof.
  apply (returned_records_have_six_keys cfg_full world_direct_only 0
           "solar jobs" empty_frame); reflexivity.
Defined.

Lemma fallback_records_carry_placeholders_witness :
  fst (search_knowledge_base cfg_full world_direct_only 0 "solar jobs"
                             empty_frame)
  = inr (JList [row_record row_solar (JNum (3 # 4))]).
Proof.
  destruct (fallback_records_carry_placeholders
              cfg_full world_direct_only 0 "solar jobs" empty_frame)
    as (_ & _ & H).
  rewrite H; reflexivity.
Defined.

Lemma keyword_fallbacks_need_tokens_witness :
  In (PgExecute (sql_query_of
                   "content ILIKE '%solar%' OR content ILIKE '%jobs%'"))
     [CacheGet "kb_search:solar jobs"; VectorSearch "solar jobs" 5;
      EmbedQuery "solar jobs"; PgConnect;
      PgExecute (sql_query_of
                   "content ILIKE '%solar%' OR content ILIKE '%jobs%'");
      CacheSetex "kb_search:solar jobs" 3600
        (Dumped (JList [row_record row_solar (JNum (3 # 4))]))] /\
  (1 <= length (conditions_of (tokens "solar jobs")) <= 3)%nat.
Proof.
  split; [simpl; auto 10|].
  destruct (keyword_fallbacks_need_tokens
              cfg_full world_direct_only 0 "solar jobs" empty_frame
              [CacheGet "kb_search:solar jobs"; VectorSearch "solar jobs" 5;
               EmbedQuery "solar jobs"; PgConnect;
               PgExecute (sql_query_of
                   "content ILIKE '%solar%' OR content ILIKE '%jobs%'");
               CacheSetex "kb_search:solar jobs" 3600
                 (Dumped (JList [row_record row_solar (JNum (3 # 4))]))])
    as (_ & _ & H); [vm_compute; reflexivity|].
  apply (H (sql_query_of "content ILIKE '%solar%' OR content ILIKE '%jobs%'")).
  simpl; auto 10.
Defined.

Lemma supervisor_node_refused_by_partner_tool_witness :
  Node.supervisor_node env_plain state_hello []
  = (inl (ToolInterface.validation_error "Input should be a valid dictionary"),
     [Node.KbSearch "How do I start?";
      Node.PartnerLookup (JStr "How do I start?")]).
Proof.
  apply (supervisor_node_refused_by_partner_tool env_plain state_hello []
           "How do I start?").
  reflexivity.
Defined.

Lemma partial_rpc_records_are_kept_witness :
  fst (search_knowledge_base cfg_full world_rpc_partial 0 "solar jobs"
                             empty_frame)
  = inr (JList [row_record [("id", JStr "rpc-1"); ("content", JStr "Wind jobs")]
                           (JNum (0 # 1));
                row_record row_solar (JNum (3 # 4))]).
Proof.
  rewrite (partial_rpc_records_are_kept cfg_full world_rpc_partial 0
             "solar jobs" empty_frame); reflexivity.
Defined.

Lemma integrate_responses_node_composes_witness :
  fst (Node.integrate_responses_node
         (state_with_responses [("liv", "Start with a course.")]) [])
  = inr {| Node.goto := "supervisor";
           Node.update :=
             {| Node.messages := None; Node.specialists_to_call := None;
                Node.routing_reasons := None; Node.context := None;
                Node.specialist_responses := None; Node.feedback := None;
                Node.error := None;
                Node.final_response :=
                  Some (Node.integrated_header +:+ "Liv's Analysis:"
                        +:+ Node.nl +:+ "Start with a course."
                        +:+ Node.nl +:+ Node.nl) |} |}.
Proof.
  rewrite (proj1 (integrate_responses_node_composes
                    (state_with_responses [("liv", "Start with a course.")])
                    [] ("liv", "Start with a course.") [] eq_refl)).
  reflexivity.
Defined.

Lemma valid_from_eleventh_birthday_witness :
  Toolbox.validate_user_age toolbox_world "2010-05-17"
  = Toolbox.age_result true "Age verification successful" /\
  Toolbox.validate_user_age toolbox_world "17 May 2010"
  = Toolbox.age_result false "Invalid date format. Use YYYY-MM-DD".
Proof.
  split.
  - destruct (proj1 (valid_from_eleventh_birthday toolbox_world "2010-05-17")
                {| Toolbox.year := 2010; Toolbox.month := 5; Toolbox.day := 17 |}
                eq_refl) as ([|] & H & Hv).
    + exact H.
    + vm_compute. reflexivity.
  - apply (proj2 (valid_from_eleventh_birthday toolbox_world "17 May 2010")).
    reflexivity.
Defined.

Lemma web_tool_lists_every_source_witness :
  exists lines,
    fst (Toolbox.web_tool toolbox_world "solar jobs" "Error: " toolbox_frame)
    = inr (Text.join Toolbox.blank_line lines) /\
    length lines = 2%nat /\
    lines !! 1%nat
    = Some "Source 2 (unknown source): Workforce training grants".
Proof.
  destruct (web_tool_lists_every_source
              toolbox_world "solar jobs" "Error: " toolbox_frame
              [doc_masscec; doc_without_url] eq_refl)
    as (lines & Hout & Hlen & Hnth & _).
  - repeat constructor; eexists; reflexivity.
  - exists lines. split; [exact Hout|]. split; [exact Hlen|].
    rewrite (Hnth 1%nat [("content", JStr "Workforce training grants")] eq_refl).
    reflexivity.
Defined.

End MoreInstances.
